(** * Review API of Server/server.js: the usefulness-vote ledger

    A shallow embedding of the three review routes of [Server/server.js]
    that write to the review collection:

    - [POST /api/reviews]              (lines 418-439), [post_reviews];
    - [POST /api/reviews/usefulness]   (lines 441-509), [post_reviews_usefulness];
    - [POST /api/reviews/:id/vote]     (lines 511-533), [post_reviews_id_vote].

    Request bodies are JSON objects whose fields are arbitrary JavaScript
    values; the collection is the list of its documents; a handler is a
    function from the request and the collection to the response and the new
    collection.  Counters are JavaScript numbers that only ever receive
    [+= 1] and [-= 1]; they are integers here.

    Three more parts of the file are embedded, each in a module of its own:
    the CORS origin check (lines 153-163, [Cors]), the Stripe webhook
    (lines 52-128, [Webhook]) and the creation of a checkout session
    (lines 536-576, [Checkout]).  Their calls to Stripe and to the mail
    transport are answered by a [world] record, and a handler returns its
    reply together with the calls it made, in order. *)

From Stdlib Require Import ZArith Lia Ascii.
From Stdlib Require QArith.QArith_base.
From Stdlib Require DecimalString.
From stdpp Require Import gmap strings list fin_maps.

Local Open Scope Z_scope.
Local Open Scope string_scope.

(* Comparisons with string literals stay folded under [simpl]. *)
#[local] Arguments String.eqb : simpl never.

(** ** JavaScript values *)

Module JS.

(** The values a parsed JSON body can hold.  [JObject] stands for objects
    and arrays, of which the handlers only test the truthiness. *)
Inductive value : Type :=
| JUndefined
| JNull
| JBool (b : bool)
| JNum (q : QArith_base.Q)
| JStr (s : string)
| JObject.

(** [!v] is [negb (truthy v)]. *)
Definition truthy (v : value) : bool :=
  match v with
  | JUndefined | JNull => false
  | JBool b => b
  | JNum q => negb (QArith_base.Qnum q =? 0)%Z
  | JStr s => negb (String.eqb s EmptyString)
  | JObject => true
  end.

(** [a === b].  The two sides compared by the handlers never hold the same
    object: one comes from the request, the other from the stored map or
    from a literal. *)
Definition strict_eq (a b : value) : bool :=
  match a, b with
  | JUndefined, JUndefined => true
  | JNull, JNull => true
  | JBool x, JBool y => Bool.eqb x y
  | JNum x, JNum y => QArith_base.Qeq_bool x y
  | JStr x, JStr y => String.eqb x y
  | _, _ => false
  end.

(** [l.includes(v)] on an array of string literals. *)
Definition includes (l : list string) (v : value) : bool :=
  existsb (fun s => strict_eq (JStr s) v) l.

End JS.
Import JS.

Notation "a === b" := (strict_eq a b) (at level 70, no associativity).

(** ** The Review model and the collection *)

(** Modelled from the spec: the schema of [./models/Review] is not part of
    the sources.  A review has the fields the handlers and section 3 of the
    specification name; [userVotes] is a map with string keys and string
    values. *)
Record Review : Type := mkReview {
  _id : string;
  title : value;
  content : value;
  rating : value;
  productName : value;
  reviewType : value;
  thumbsUp : Z;
  thumbsDown : Z;
  userVotes : gmap string string
}.

Definition set_thumbsUp (n : Z) (r : Review) : Review :=
  mkReview (_id r) (title r) (content r) (rating r) (productName r)
           (reviewType r) n (thumbsDown r) (userVotes r).

Definition set_thumbsDown (n : Z) (r : Review) : Review :=
  mkReview (_id r) (title r) (content r) (rating r) (productName r)
           (reviewType r) (thumbsUp r) n (userVotes r).

Definition set_userVotes (m : gmap string string) (r : Review) : Review :=
  mkReview (_id r) (title r) (content r) (rating r) (productName r)
           (reviewType r) (thumbsUp r) (thumbsDown r) m.

(** Modelled from the spec: [new Review({...})] of the absent model.  The
    counters start at 0 and the vote map is empty (section 3); the identifier
    [oid] is the one assigned at creation. *)
Definition new_Review (oid : string) (t c r p ty : value) : Review :=
  mkReview oid t c r p ty 0 0 ∅.

(** The collection: its documents, in insertion order. *)
Abbreviation Store := (list Review).

(** Modelled from the spec: [Review.findById], the store's
    [loadReview(id) -> Review | NotFound].  Identifiers are opaque strings;
    a value that is not a string names no document. *)
Definition findById (id : value) (db : Store) : option Review :=
  match id with
  | JStr s => List.find (fun d => String.eqb (_id d) s) db
  | _ => None
  end.

(** Modelled from the spec: [review.save()] on a loaded document, the
    store's [saveReview]: the document with that identifier is replaced.
    Conflicts between concurrent writers are outside this model. *)
Fixpoint save (r : Review) (db : Store) : Store :=
  match db with
  | [] => []
  | d :: ds => if String.eqb (_id d) (_id r) then r :: ds else d :: save r ds
  end.

(** [newReview.save()] on a fresh document: it is added to the collection. *)
Definition save_new (r : Review) (db : Store) : Store := db ++ [r].

(** ** Responses *)

Inductive json : Type :=
| ErrorJson (error : string)
| ReviewJson (r : Review)
| CountersJson (up down : Z).

Record response : Type := mkResponse { status : nat; payload : json }.

(** [res.status(n).json({ error: msg })] and [res.json(x)]. *)
Definition res_error (n : nat) (msg : string) : response :=
  mkResponse n (ErrorJson msg).
Definition res_json (x : json) : response := mkResponse 200 x.

(** How a handler's [try] block ends on a loaded document: it falls through
    to [save] with the mutated document, it returns a response early, or a
    call throws and the [catch] answers. *)
Inductive completion : Type :=
| Normal (r : Review)
| Return (resp : response)
| Throw.

(** ** The vote map of a document *)

(** The key check of the map behind [userVotes]: a key is a string that
    does not start with [$], does not contain [.] and is none of the reserved
    property names.  [set] and [delete] throw on any other key, and loading a
    document checks its keys the same way, so the map never holds one. *)
Definition starts_with_dollar (k : string) : bool :=
  match k with
  | String c _ => Ascii.eqb c "$"%char
  | EmptyString => false
  end.

Fixpoint contains_dot (k : string) : bool :=
  match k with
  | String c k' => Ascii.eqb c "."%char || contains_dot k'
  | EmptyString => false
  end.

Definition reserved_key (k : string) : bool :=
  existsb (String.eqb k) ["__proto__"; "constructor"; "prototype"].

Definition valid_key (k : string) : bool :=
  negb (starts_with_dollar k) && negb (contains_dot k) && negb (reserved_key k).

(** [review.userVotes.get(key)]: [undefined] when the key has no entry.  The
    keys of the map are strings that pass the key check, so no other value
    has an entry. *)
Definition userVotes_get (key : value) (r : Review) : value :=
  match key with
  | JStr k =>
      if valid_key k then
        match userVotes r !! k with Some v => JStr v | None => JUndefined end
      else JUndefined
  | _ => JUndefined
  end.

(** [review.userVotes.set(key, v)].  The map holds strings under keys that
    pass the key check: anything else makes the call throw. *)
Definition userVotes_set (key v : value) (r : Review) : completion :=
  match key, v with
  | JStr k, JStr s =>
      if valid_key k then Normal (set_userVotes (<[k := s]> (userVotes r)) r)
      else Throw
  | _, _ => Throw
  end.

(** [review.userVotes.delete(key)], which checks the key as [set] does. *)
Definition userVotes_delete (key : value) (r : Review) : completion :=
  match key with
  | JStr k =>
      if valid_key k then Normal (set_userVotes (delete k (userVotes r)) r)
      else Throw
  | _ => Throw
  end.

(** ** POST /api/reviews/usefulness *)

Record usefulness_body : Type := mkUsefulness {
  reviewId : value;
  userUUID : value;
  type : value
}.

(** [if (v === 'like') review.thumbsUp -= 1;
     else if (v === 'dislike') review.thumbsDown -= 1;] *)
Definition decrement_for (v : value) (review : Review) : Review :=
  if v === JStr "like" then set_thumbsUp (thumbsUp review - 1) review
  else if v === JStr "dislike" then set_thumbsDown (thumbsDown review - 1) review
  else review.

(** [if (v === 'like') review.thumbsUp += 1;
     else if (v === 'dislike') review.thumbsDown += 1;] *)
Definition increment_for (v : value) (review : Review) : Review :=
  if v === JStr "like" then set_thumbsUp (thumbsUp review + 1) review
  else if v === JStr "dislike" then set_thumbsDown (thumbsDown review + 1) review
  else review.

(** Lines 454-502: the branches on [type] and [currentVote]. *)
Definition usefulness_update (userUUID type : value) (review : Review) : completion :=
  let currentVote := userVotes_get userUUID review in
  if type === JStr "remove" then
    if negb (truthy currentVote) then
      Return (res_error 400 "No vote to remove")
    else
      userVotes_delete userUUID (decrement_for currentVote review)
  else if truthy currentVote then
    if currentVote === type then
      userVotes_delete userUUID (decrement_for type review)
    else
      userVotes_set userUUID type
        (increment_for type (decrement_for currentVote review))
  else
    userVotes_set userUUID type (increment_for type review).

(** Lines 441-509. *)
Definition post_reviews_usefulness (body : usefulness_body) (db : Store)
  : response * Store :=
  if negb (truthy (userUUID body)) || negb (truthy (type body))
     || negb (includes ["like"; "dislike"; "remove"] (type body))
  then (res_error 400 "Invalid input", db)
  else
    match findById (reviewId body) db with
    | None => (res_error 404 "Review not found", db)
    | Some review =>
        match usefulness_update (userUUID body) (type body) review with
        | Return resp => (resp, db)
        | Throw => (res_error 500 "Failed to update review usefulness", db)
        | Normal updatedReview => (res_json (ReviewJson updatedReview), save updatedReview db)
        end
    end.

(** ** POST /api/reviews/:id/vote *)

(** Lines 511-533.  [id] is the route parameter, a string.  The [catch] of
    lines 530-532 answers a lookup or a save that throws with 500 and saves
    nothing; the store of this model does neither, so that answer does not
    occur here. *)
Definition post_reviews_id_vote (id : string) (voteType : value) (db : Store)
  : response * Store :=
  match findById (JStr id) db with
  | None => (res_error 404 "Review not found", db)
  | Some review =>
      if voteType === JStr "like" then
        let review := set_thumbsUp (thumbsUp review + 1) review in
        (res_json (CountersJson (thumbsUp review) (thumbsDown review)), save review db)
      else if voteType === JStr "dislike" then
        let review := set_thumbsDown (thumbsDown review + 1) review in
        (res_json (CountersJson (thumbsUp review) (thumbsDown review)), save review db)
      else (res_error 400 "Invalid vote type", db)
  end.

(** ** POST /api/reviews *)

Record review_body : Type := mkReviewBody {
  body_title : value;
  body_content : value;
  body_rating : value;
  body_product : value
}.

(** Lines 418-439.  [oid] is the identifier the new document receives.
    Whether [new Review] and [save] accept the document is decided by the
    schema of [./models/Review] and by the store, neither of which is part of
    the sources: [accepts] stands for that decision, and a document it
    refuses is answered by the [catch] of lines 435-438. *)
Definition post_reviews (accepts : Review → bool) (oid : string)
    (body : review_body) (db : Store) : response * Store :=
  if negb (truthy (body_title body)) || negb (truthy (body_content body))
     || negb (truthy (body_rating body)) || negb (truthy (body_product body))
  then (res_error 400 "Missing required fields", db)
  else
    let newReview :=
      new_Review oid (body_title body) (body_content body) (body_rating body)
                 (body_product body) (JStr "product") in
    if accepts newReview
    then (mkResponse 201 (ReviewJson newReview), save_new newReview db)
    else (res_error 400 "Failed to save review", db).

(** ** Sequences of API calls *)

(** The two vote operations the API offers. *)
Inductive api_call : Type :=
| Usefulness (body : usefulness_body)
| SimpleVote (id : string) (voteType : value).

Definition api_step (c : api_call) (db : Store) : response * Store :=
  match c with
  | Usefulness body => post_reviews_usefulness body db
  | SimpleVote id voteType => post_reviews_id_vote id voteType db
  end.

(** The collection after the calls, served one after the other. *)
Fixpoint api_run (cs : list api_call) (db : Store) : Store :=
  match cs with
  | [] => db
  | c :: cs => api_run cs (snd (api_step c db))
  end.

(** Every call of the sequence is answered with status 200. *)
Fixpoint api_all_ok (cs : list api_call) (db : Store) : bool :=
  match cs with
  | [] => true
  | c :: cs =>
      Nat.eqb (status (fst (api_step c db))) 200
      && api_all_ok cs (snd (api_step c db))
  end.

(** Sequences of usefulness requests only. *)
Definition usefulness_run (bodies : list usefulness_body) (db : Store) : Store :=
  api_run (map Usefulness bodies) db.

(** ** The vote ledger as the specification words it *)

Inductive Vote : Type := like | dislike.
Inductive Action : Type := ActLike | ActDislike | ActRemove.

Definition vote_literal (v : Vote) : string :=
  match v with like => "like" | dislike => "dislike" end.

Definition action_literal (a : Action) : string :=
  match a with ActLike => "like" | ActDislike => "dislike" | ActRemove => "remove" end.

(** The transition table of section 4.1, read off row by row:
    [applyVote currentVote requestedAction] is the new vote with the deltas
    of [thumbsUp] and [thumbsDown], or [None] for [NothingToRemove]. *)
Definition applyVote (currentVote : option Vote) (requestedAction : Action)
  : option (option Vote * Z * Z) :=
  match currentVote, requestedAction with
  | None, ActLike => Some (Some like, 1, 0)
  | None, ActDislike => Some (Some dislike, 0, 1)
  | None, ActRemove => None
  | Some like, ActLike => Some (None, -1, 0)
  | Some like, ActDislike => Some (Some dislike, -1, 1)
  | Some like, ActRemove => Some (None, -1, 0)
  | Some dislike, ActLike => Some (Some like, 1, -1)
  | Some dislike, ActDislike => Some (None, 0, -1)
  | Some dislike, ActRemove => Some (None, 0, -1)
  end.

(** "The caller updates the counters by the returned deltas and sets the
    user's vote entry to newVote (or deletes the entry if newVote is none)". *)
Definition apply_result (u : string) (res : option Vote * Z * Z) (r : Review) : Review :=
  let '(newVote, dUp, dDown) := res in
  mkReview (_id r) (title r) (content r) (rating r) (productName r) (reviewType r)
           (thumbsUp r + dUp) (thumbsDown r + dDown)
           (match newVote with
            | Some v => <[u := vote_literal v]> (userVotes r)
            | None => delete u (userVotes r)
            end).

(** ** The count invariant *)

(** The number of entries of the vote map with value [v]. *)
Definition count (v : string) (m : gmap string string) : nat :=
  size (filter (λ kv : string * string, kv.2 = v) m).

Definition count_inv (r : Review) : Prop :=
  thumbsUp r = Z.of_nat (count "like" (userVotes r))
  ∧ thumbsDown r = Z.of_nat (count "dislike" (userVotes r)).

Definition counters_nonneg (r : Review) : Prop :=
  0 <= thumbsUp r ∧ 0 <= thumbsDown r.

(** 1 when the stored value [x] is [v], else 0. *)
Definition ind (v x : string) : Z := if String.eqb x v then 1 else 0.

(** What the entry of user [u] contributes to the count of [v]. *)
Definition entry (v u : string) (m : gmap string string) : Z :=
  match m !! u with Some x => ind v x | None => 0 end.

(** The same, for the value a [get] returned or a request carries. *)
Definition vind (v : string) (x : value) : Z :=
  match x with JStr s => ind v s | _ => 0 end.

(** The fields no vote touches. *)
Definition same_meta (r r' : Review) : Prop :=
  _id r' = _id r ∧ title r' = title r ∧ content r' = content r
  ∧ rating r' = rating r ∧ productName r' = productName r
  ∧ reviewType r' = reviewType r.

(** ** Weaker invariants, kept by both vote routes *)

(** Each counter is at least the number of recorded votes of its kind. *)
Definition count_le (r : Review) : Prop :=
  Z.of_nat (count "like" (userVotes r)) <= thumbsUp r
  ∧ Z.of_nat (count "dislike" (userVotes r)) <= thumbsDown r.

(** Every recorded vote is one of the two vote literals. *)
Definition votes_wf (r : Review) : Prop :=
  ∀ u v, userVotes r !! u = Some v → v = "like" ∨ v = "dislike".

(** One request of user [u] on a review, following the table: the review
    with the table's result applied, or the review itself in the cell without
    a transition. *)
Definition ledger_step (u : string) (cv : option Vote) (a : Action) (r : Review)
  : Review :=
  match applyVote cv a with
  | Some res => apply_result u res r
  | None => r
  end.

(** ** The CORS origin check (lines 153-163) *)

Module Cors.

(** [allowedOrigins], with the value of [process.env.CLIENT_URL]. *)
Definition allowedOrigins (CLIENT_URL : value) : list value :=
  [CLIENT_URL; JStr "https://checkout.stripe.com"].

(** [l.indexOf(v)]: the first index whose element is [=== v], or -1. *)
Fixpoint indexOf_from (i : Z) (l : list value) (v : value) : Z :=
  match l with
  | [] => -1
  | x :: l' => if x === v then i else indexOf_from (i + 1) l' v
  end.

Definition indexOf (l : list value) (v : value) : Z := indexOf_from 0 l v.

(** What the [origin] function hands to its callback: [callback(null, true)]
    or [callback(new Error(msg))]. *)
Inductive decision : Type :=
| Allowed
| Refused (message : string).

Definition origin (CLIENT_URL : value) (origin : value) : decision :=
  if negb (truthy origin)
     || negb (indexOf (allowedOrigins CLIENT_URL) origin =? -1)%Z
  then Allowed
  else Refused "Not allowed by CORS".

End Cors.

(** ** POST /webhook (lines 52-128) *)

Module Webhook.

(** The parts of a Stripe event the handler reads.  [None] is a field that
    is [null] or [undefined], where [?.] stops. *)
Record shipping_details_t : Type := { address : value }.
Record customer_details_t : Type := { email : value }.

Record session_t : Type := {
  id : value;
  shipping_details : option shipping_details_t;
  customer_details : option customer_details_t
}.

Record event_t : Type := { type : value; data_object : session_t }.

(** An element of [line_items.data]. *)
Record line_item : Type := { quantity : value; description : value }.

(** The argument of [transporter.sendMail]. *)
Record mail : Type := {
  from : value;
  to : value;
  subject : string;
  text : string
}.

Record request : Type := {
  body : string;
  stripe_signature : value
}.

(** What lies outside the handler, for one delivery: the environment
    variables, the string conversions of the language, and the outcome of
    each call to Stripe and to the mail transport.  [constructEvent] returns
    the event or throws an error with a message; [listLineItems] resolves to
    the [data] array or rejects; [retrieve] and [sendMail] succeed or
    reject. *)
Record world : Type := {
  EMAIL_USER : value;
  STRIPE_WEBHOOK_SECRET : value;
  ToString : value → string;
  JSON_stringify : value → string;
  constructEvent : string → value → value → string + event_t;
  listLineItems : value → option (list line_item);
  retrieve : value → bool;
  sendMail : mail → bool
}.

(** The calls the handler makes, in the order it makes them. *)
Inductive call : Type :=
| ListLineItems (session_id : value)
| RetrieveSession (session_id : value)
| SendMail (m : mail).

(** How the handler ends: [res.status(n).send(text)],
    [res.json({ received: true })], or its promise rejects before any answer
    (the [await] of line 86 stands outside every [try]). *)
Inductive reply : Type :=
| Send (status : nat) (text : string)
| Received
| Rejects.

(** [session.shipping_details?.address] and [session.customer_details?.email]. *)
Definition shippingAddress (session : session_t) : value :=
  match shipping_details session with
  | Some d => address d
  | None => JUndefined
  end.

Definition customerEmail (session : session_t) : value :=
  match customer_details session with
  | Some d => email d
  | None => JUndefined
  end.

(** Lines 87-89: [`${item.quantity} x ${item.description}`], joined by [', ']. *)
Definition formattedLineItems (w : world) (line_items : list line_item) : string :=
  String.concat ", "
    (map (fun item =>
            String.append (ToString w (quantity item))
              (String.append " x " (ToString w (description item))))
         line_items).

(** Lines 104-109 and 111-116. *)
Definition mailUser (w : world) (session : session_t) : mail :=
  {| from := EMAIL_USER w;
     to := customerEmail session;
     subject := "Order Confirmation";
     text := "Thank you for your order! Your order is being processed." |}.

Definition mailCompany (w : world) (session : session_t) (formatted : string) : mail :=
  {| from := EMAIL_USER w;
     to := EMAIL_USER w;
     subject := "Order Confirmation";
     text :=
       String.append "An order for "
         (String.append formatted
            (String.append " has been placed. The customer would like his order shipped to "
               (String.append (JSON_stringify w (shippingAddress session))
                  (String.append ". His/her email is "
                     (String.append (ToString w (customerEmail session)) "."))))) |}.

(** The handler: its reply and the calls it made. *)
Definition webhook (w : world) (req : request) : reply * list call :=
  match constructEvent w (body req) (stripe_signature req) (STRIPE_WEBHOOK_SECRET w) with
  | inl message => (Send 400 (String.append "Webhook Error: " message), [])
  | inr event =>
      if type event === JStr "checkout.session.completed" then
        let session := data_object event in
        if negb (truthy (shippingAddress session)) then
          (Send 400 "No shipping address found", [])
        else if negb (truthy (customerEmail session)) then
          (Send 400 "No customer email found", [])
        else
          match listLineItems w (id session) with
          | None => (Rejects, [ListLineItems (id session)])
          | Some line_items =>
              let formatted := formattedLineItems w line_items in
              if negb (retrieve w (id session)) then
                (Send 500 "Internal Server Error",
                 [ListLineItems (id session); RetrieveSession (id session)])
              else if negb (sendMail w (mailUser w session)) then
                (Send 500 "Internal Server Error",
                 [ListLineItems (id session); RetrieveSession (id session);
                  SendMail (mailUser w session)])
              else if negb (sendMail w (mailCompany w session formatted)) then
                (Send 500 "Internal Server Error",
                 [ListLineItems (id session); RetrieveSession (id session);
                  SendMail (mailUser w session);
                  SendMail (mailCompany w session formatted)])
              else
                (Received,
                 [ListLineItems (id session); RetrieveSession (id session);
                  SendMail (mailUser w session);
                  SendMail (mailCompany w session formatted)])
          end
      else (Received, [])
  end.

End Webhook.

(** ** POST /create-checkout-session (lines 536-576) *)

Module Checkout.

(** An element of [items] in the request body. *)
Record item : Type := { id : value; quantity : value }.

(** An entry of the catalogue [./products.js], which is not part of the
    sources: the handler reads its [id], [name] and [price]. *)
Record product : Type := {
  product_id : value;
  name : value;
  price : value
}.

(** An element of [line_items] in the call to Stripe. *)
Record line_item : Type := {
  currency : string;
  product_data_name : value;
  unit_amount : value;
  line_quantity : value
}.

(** The argument of [stripe.checkout.sessions.create]. *)
Record session_params : Type := {
  payment_method_types : list string;
  line_items : list line_item;
  mode : string;
  success_url : string;
  cancel_url : string;
  customer_email : value;
  allowed_countries : list string
}.

(** The request body; [items] is [None] when it is not an array. *)
Record body : Type := {
  items : option (list item);
  customerEmail : value
}.

(** What lies outside the handler: the catalogue, [process.env.CLIENT_URL],
    the string conversion of template literals, the multiplication of
    JavaScript numbers, and the outcome of the call to Stripe (the [id] of
    the new session, or a rejection). *)
Record world : Type := {
  products : list product;
  CLIENT_URL : value;
  ToString : value → string;
  times : value → value → value;
  create : session_params → option value
}.

Inductive reply : Type :=
| SessionId (id : value)
| InternalServerError.

(** Lines 544-561: the callback of [items.map].  [None] is the [throw] of
    line 548. *)
Definition line_item_of (w : world) (it : item) : option line_item :=
  match List.find (fun p => product_id p === id it) (products w) with
  | None => None
  | Some p =>
      Some {| currency := "usd";
              product_data_name := name p;
              unit_amount := times w (price p) (JNum (QArith_base.Qmake 100 1));
              line_quantity := quantity it |}
  end.

(** [items.map(callback)], stopped by the first [throw]. *)
Fixpoint map_items (w : world) (its : list item) : option (list line_item) :=
  match its with
  | [] => Some []
  | it :: its' =>
      match line_item_of w it with
      | None => None
      | Some li =>
          match map_items w its' with
          | None => None
          | Some lis => Some (li :: lis)
          end
      end
  end.

Definition params_of (w : world) (b : body) (lis : list line_item) : session_params :=
  {| payment_method_types := ["card"];
     line_items := lis;
     mode := "payment";
     success_url := String.append (ToString w (CLIENT_URL w)) "/Success";
     cancel_url := String.append (ToString w (CLIENT_URL w)) "/Cancel";
     customer_email := customerEmail b;
     allowed_countries := ["US"] |}.

(** The handler: its reply and the sessions it asked Stripe to create. *)
Definition create_checkout_session (w : world) (b : body)
  : reply * list session_params :=
  match items b with
  | None => (InternalServerError, [])
  | Some its =>
      match map_items w its with
      | None => (InternalServerError, [])
      | Some lis =>
          match create w (params_of w b lis) with
          | None => (InternalServerError, [params_of w b lis])
          | Some sid => (SessionId sid, [params_of w b lis])
          end
      end
  end.

End Checkout.

(** ** Concrete states *)

(** A collection with one fresh review, and the same review after user
    ["u1"] liked it: the concrete states the examples run on. *)
Definition review0 : Review :=
  new_Review "r1" (JStr "Fast machine") (JStr "Runs cool and quiet")
             (JNum (QArith_base.Qmake 5 1)) (JStr "Server PC") (JStr "product").

Definition review0_liked : Review :=
  set_userVotes (<["u1" := "like"]> ∅) (set_thumbsUp 1 review0).

(** A delivery of a completed checkout in a world where Stripe and the
    mail transport answer, and a catalogue with two products. *)
Definition example_ToString (v : value) : string :=
  match v with
  | JStr s => s
  | JNum q => DecimalString.NilZero.string_of_int (Z.to_int (QArith_base.Qnum q))
  | JBool true => "true"
  | JBool false => "false"
  | JNull => "null"
  | JUndefined => "undefined"
  | JObject => "[object Object]"
  end.

Definition example_event : Webhook.event_t :=
  {| Webhook.type := JStr "checkout.session.completed";
     Webhook.data_object :=
       {| Webhook.id := JStr "cs_test_1";
          Webhook.shipping_details := Some {| Webhook.address := JObject |};
          Webhook.customer_details :=
            Some {| Webhook.email := JStr "buyer@example.com" |} |} |}.

Definition example_webhook_world : Webhook.world :=
  {| Webhook.EMAIL_USER := JStr "shop@example.com";
     Webhook.STRIPE_WEBHOOK_SECRET := JStr "whsec_test";
     Webhook.ToString := example_ToString;
     Webhook.JSON_stringify := fun _ => "{}";
     Webhook.constructEvent := fun _ sig _ =>
       if sig === JStr "t=1,v1=ok" then inr example_event
       else inl "No signatures found matching the expected signature for payload";
     Webhook.listLineItems := fun _ =>
       Some [ {| Webhook.quantity := JNum (QArith_base.Qmake 2 1);
                 Webhook.description := JStr "Server PC" |};
              {| Webhook.quantity := JNum (QArith_base.Qmake 1 1);
                 Webhook.description := JStr "Rack rails" |} ];
     Webhook.retrieve := fun _ => true;
     Webhook.sendMail := fun _ => true |}.

Definition example_webhook_request : Webhook.request :=
  {| Webhook.body := "{}"; Webhook.stripe_signature := JStr "t=1,v1=ok" |}.

Definition example_checkout_world : Checkout.world :=
  {| Checkout.products :=
       [ {| Checkout.product_id := JNum (QArith_base.Qmake 1 1);
            Checkout.name := JStr "Server PC";
            Checkout.price := JNum (QArith_base.Qmake 900 1) |};
         {| Checkout.product_id := JNum (QArith_base.Qmake 2 1);
            Checkout.name := JStr "Rack rails";
            Checkout.price := JNum (QArith_base.Qmake 40 1) |} ];
     Checkout.CLIENT_URL := JStr "https://shop.example.com";
     Checkout.ToString := example_ToString;
     Checkout.times := fun a b =>
       match a, b with
       | JNum x, JNum y => JNum (QArith_base.Qmult x y)
       | _, _ => JUndefined
       end;
     Checkout.create := fun _ => Some (JStr "cs_test_2") |}.

(** Two orders for that catalogue: one that names a product it does not
    have, and one for three rack rails, with the session the handler asks
    Stripe for. *)
Definition example_unknown_item : Checkout.item :=
  {| Checkout.id := JNum (QArith_base.Qmake 7 1);
     Checkout.quantity := JNum (QArith_base.Qmake 3 1) |}.

Definition example_unknown_items : list Checkout.item :=
  [ {| Checkout.id := JNum (QArith_base.Qmake 2 1);
       Checkout.quantity := JNum (QArith_base.Qmake 1 1) |};
    example_unknown_item ].

Definition example_unknown_order : Checkout.body :=
  {| Checkout.items := Some example_unknown_items;
     Checkout.customerEmail := JStr "buyer@example.com" |}.

Definition example_order : Checkout.body :=
  {| Checkout.items :=
       Some [ {| Checkout.id := JNum (QArith_base.Qmake 2 1);
                 Checkout.quantity := JNum (QArith_base.Qmake 3 1) |} ];
     Checkout.customerEmail := JStr "buyer@example.com" |}.

Definition example_params : Checkout.session_params :=
  Checkout.params_of example_checkout_world example_order
    [ {| Checkout.currency := "usd";
         Checkout.product_data_name := JStr "Rack rails";
         Checkout.unit_amount := JNum (QArith_base.Qmake 4000 1);
         Checkout.line_quantity := JNum (QArith_base.Qmake 3 1) |} ].

(** * Properties *)

(** ** JavaScript values *)

Lemma truthy_JStr (s : string) : s ≠ EmptyString → truthy (JStr s) = true.
Proof.
  intros Hs. simpl. destruct (String.eqb_spec s EmptyString); [contradiction | reflexivity].
Qed.

Lemma strict_eq_literal (v : value) (s : string) :
  (v === JStr s) = true → v = JStr s.
Proof.
  destruct v; simpl; try discriminate.
  intros H. apply String.eqb_eq in H. by subst.
Qed.

Lemma includes_actions (v : value) :
  includes ["like"; "dislike"; "remove"] v = true →
  v = JStr "like" ∨ v = JStr "dislike" ∨ v = JStr "remove".
Proof.
  destruct v; simpl; try discriminate.
  destruct (String.eqb_spec "like" s) as [<-|_]; [by left|].
  destruct (String.eqb_spec "dislike" s) as [<-|_]; [by right; left|].
  destruct (String.eqb_spec "remove" s) as [<-|_]; [by right; right|].
  discriminate.
Qed.

(** ** The collection *)

Lemma findById_id (rid : string) (db : Store) (r : Review) :
  findById (JStr rid) db = Some r → _id r = rid.
Proof.
  simpl. intros H. apply find_some in H as [_ H]. by apply String.eqb_eq in H.
Qed.

Lemma findById_save (rid : string) (db : Store) (r r' : Review) :
  findById (JStr rid) db = Some r → _id r' = _id r →
  findById (JStr rid) (save r' db) = Some r'.
Proof.
  intros Hf Hid. pose proof (findById_id _ _ _ Hf) as Hr.
  simpl in *. induction db as [|d ds IH]; simpl in *; [discriminate|].
  rewrite Hid, Hr.
  destruct (String.eqb_spec (_id d) rid) as [Hd|Hd]; simpl.
  - rewrite Hid, Hr. by rewrite String.eqb_refl.
  - destruct (String.eqb_spec (_id d) rid); [contradiction|]. by apply IH.
Qed.

Lemma findById_save_other (id : value) (db : Store) (r' : Review) :
  id ≠ JStr (_id r') → findById id (save r' db) = findById id db.
Proof.
  destruct id as [| | | |s|]; simpl; try reflexivity.
  intros Hne. induction db as [|d ds IH]; simpl; [reflexivity|].
  destruct (String.eqb_spec (_id d) (_id r')) as [Hd|Hd]; simpl.
  - destruct (String.eqb_spec (_id r') s) as [He|_]; [congruence|].
    destruct (String.eqb_spec (_id d) s) as [He|_]; [congruence|]. reflexivity.
  - by rewrite IH.
Qed.

Lemma save_same (rid : string) (db : Store) (r : Review) :
  findById (JStr rid) db = Some r → save r db = db.
Proof.
  intros Hf. pose proof (findById_id _ _ _ Hf) as Hr. simpl in Hf.
  induction db as [|d ds IH]; simpl in *; [reflexivity|].
  rewrite Hr. destruct (String.eqb_spec (_id d) rid); [congruence|].
  by rewrite IH.
Qed.

Lemma save_save (r1 r2 : Review) (db : Store) :
  _id r1 = _id r2 → save r2 (save r1 db) = save r2 db.
Proof.
  intros Hid. induction db as [|d ds IH]; simpl; [reflexivity|].
  destruct (String.eqb_spec (_id d) (_id r1)) as [Hd|Hd]; simpl.
  - rewrite Hid, String.eqb_refl.
    destruct (String.eqb_spec (_id d) (_id r2)); [reflexivity|congruence].
  - destruct (String.eqb_spec (_id d) (_id r2)); [congruence|]. by rewrite IH.
Qed.

(** ** Counting votes *)

Lemma count_insert (v u x : string) (m : gmap string string) :
  Z.of_nat (count v (<[u := x]> m)) = Z.of_nat (count v (delete u m)) + ind v x.
Proof.
  unfold count, ind. destruct (String.eqb_spec x v) as [Hx|Hx].
  - rewrite map_filter_insert_True by done.
    rewrite <- insert_delete_eq, map_size_insert_None by apply lookup_delete_eq.
    rewrite map_filter_delete. lia.
  - rewrite map_filter_insert_False by done. lia.
Qed.

Lemma count_delete (v u : string) (m : gmap string string) :
  Z.of_nat (count v m)
  = Z.of_nat (count v (delete u m))
    + match m !! u with Some x => ind v x | None => 0 end.
Proof.
  destruct (m !! u) as [x|] eqn:Hu.
  - rewrite <- (insert_id m u x Hu) at 1. apply count_insert.
  - rewrite delete_id by done. lia.
Qed.

(** ** One usefulness vote on a loaded document *)

Lemma userVotes_get_valid (u : string) (r : Review) :
  valid_key u = true →
  userVotes_get (JStr u) r
  = match userVotes r !! u with Some v => JStr v | None => JUndefined end.
Proof. intros Hk. unfold userVotes_get. by rewrite Hk. Qed.

Lemma userVotes_get_invalid (u : string) (r : Review) :
  valid_key u = false → userVotes_get (JStr u) r = JUndefined.
Proof. intros Hk. unfold userVotes_get. by rewrite Hk. Qed.

Lemma userVotes_get_None (u : string) (r : Review) :
  userVotes r !! u = None → userVotes_get (JStr u) r = JUndefined.
Proof. intros Hv. unfold userVotes_get. rewrite Hv. by destruct (valid_key u). Qed.

Lemma userVotes_set_valid (u a : string) (r : Review) :
  valid_key u = true →
  userVotes_set (JStr u) (JStr a) r
  = Normal (set_userVotes (<[u := a]> (userVotes r)) r).
Proof. intros Hk. unfold userVotes_set. by rewrite Hk. Qed.

Lemma userVotes_delete_valid (u : string) (r : Review) :
  valid_key u = true →
  userVotes_delete (JStr u) r = Normal (set_userVotes (delete u (userVotes r)) r).
Proof. intros Hk. unfold userVotes_delete. by rewrite Hk. Qed.

Lemma userVotes_set_not_Return (k v : value) (r : Review) (resp : response) :
  userVotes_set k v r = Return resp → False.
Proof.
  unfold userVotes_set. destruct k as [| | | |u|], v; try discriminate.
  by destruct (valid_key u).
Qed.

Lemma userVotes_delete_not_Return (k : value) (r : Review) (resp : response) :
  userVotes_delete k r = Return resp → False.
Proof.
  unfold userVotes_delete. destruct k as [| | | |u|]; try discriminate.
  by destruct (valid_key u).
Qed.

(** A user whose key the map refuses has no vote to read, and none of the
    two writes goes through. *)
Lemma usefulness_update_invalid_key (u : string) (t : value) (r r' : Review) :
  valid_key u = false → usefulness_update (JStr u) t r ≠ Normal r'.
Proof.
  intros Hk. unfold usefulness_update.
  rewrite (userVotes_get_invalid u r Hk). cbn [truthy negb].
  unfold userVotes_set. rewrite Hk.
  destruct (t === JStr "remove"); [discriminate|]. by destruct t.
Qed.

Lemma same_meta_trans (r1 r2 r3 : Review) :
  same_meta r1 r2 → same_meta r2 r3 → same_meta r1 r3.
Proof. unfold same_meta. intuition congruence. Qed.

Lemma like_dislike_excl (s : string) :
  String.eqb s "like" = true → String.eqb s "dislike" = true → False.
Proof.
  intros H1 H2. apply String.eqb_eq in H1. subst s. vm_compute in H2. discriminate.
Qed.

Lemma decrement_for_spec (v : value) (r : Review) :
  thumbsUp (decrement_for v r) = thumbsUp r - vind "like" v
  ∧ thumbsDown (decrement_for v r) = thumbsDown r - vind "dislike" v
  ∧ userVotes (decrement_for v r) = userVotes r
  ∧ same_meta r (decrement_for v r).
Proof.
  unfold decrement_for, same_meta.
  destruct v as [| | | |s|]; simpl; try (repeat split; lia).
  unfold ind.
  destruct (String.eqb s "like") eqn:E1, (String.eqb s "dislike") eqn:E2;
    simpl; try (repeat split; lia).
  destruct (like_dislike_excl s E1 E2).
Qed.

Lemma increment_for_spec (v : value) (r : Review) :
  thumbsUp (increment_for v r) = thumbsUp r + vind "like" v
  ∧ thumbsDown (increment_for v r) = thumbsDown r + vind "dislike" v
  ∧ userVotes (increment_for v r) = userVotes r
  ∧ same_meta r (increment_for v r).
Proof.
  unfold increment_for, same_meta.
  destruct v as [| | | |s|]; simpl; try (repeat split; lia).
  unfold ind.
  destruct (String.eqb s "like") eqn:E1, (String.eqb s "dislike") eqn:E2;
    simpl; try (repeat split; lia).
  destruct (like_dislike_excl s E1 E2).
Qed.

Lemma falsy_entry (v x : string) :
  v ≠ EmptyString → truthy (JStr x) = false → ind v x = 0.
Proof.
  simpl. unfold ind. intros Hv Hx.
  destruct (String.eqb_spec x EmptyString); [subst x|discriminate].
  destruct (String.eqb_spec EmptyString v); [congruence|reflexivity].
Qed.

(** The ledger equations: a vote that reaches [save] was cast under a string
    key [u]; it moves each counter by what [u]'s entry contributes after the
    vote minus what it contributed before, and changes no other entry and no
    other field. *)
Lemma usefulness_update_ledger (k t : value) (r r' : Review) :
  usefulness_update k t r = Normal r' →
  ∃ u, k = JStr u
    ∧ delete u (userVotes r') = delete u (userVotes r)
    ∧ thumbsUp r' = thumbsUp r - entry "like" u (userVotes r) + entry "like" u (userVotes r')
    ∧ thumbsDown r' = thumbsDown r - entry "dislike" u (userVotes r)
                      + entry "dislike" u (userVotes r')
    ∧ same_meta r r'.
Proof.
  destruct k as [| | | |u|];
    try (unfold usefulness_update; cbv zeta; cbn [userVotes_get truthy negb];
         destruct (t === JStr "remove");
         [discriminate | destruct t; discriminate]).
  intros H. exists u. split; [reflexivity|].
  assert (Hk : valid_key u = true).
  { destruct (valid_key u) eqn:Hk; [reflexivity|].
    destruct (usefulness_update_invalid_key u t r r' Hk H). }
  unfold usefulness_update in H. cbv zeta in H.
  rewrite (userVotes_get_valid u r Hk) in H.
  unfold entry at 1 3.
  destruct (userVotes r !! u) as [x|] eqn:Hx.
  - destruct (t === JStr "remove") eqn:Hrem.
    + (* remove *)
      destruct (truthy (JStr x)) eqn:Htr; [|discriminate].
      destruct (decrement_for_spec (JStr x) r) as (Hu & Hd & Hm & Hmeta).
      rewrite ?(userVotes_delete_valid u _ Hk), ?(userVotes_set_valid u _ _ Hk) in H.
           injection H as <-. cbn [userVotes thumbsUp thumbsDown set_userVotes].
      unfold entry. rewrite lookup_delete_eq, Hm, Hu, Hd. simpl.
      repeat split; try lia; try apply Hmeta.
      by rewrite delete_delete_eq.
    + destruct (truthy (JStr x)) eqn:Htr.
      * destruct (JStr x === t) eqn:Heq.
        -- (* toggle off *)
           apply eq_sym in Heq. destruct t as [| | | |a|]; try discriminate.
           apply eq_sym, String.eqb_eq in Heq. subst a.
           destruct (decrement_for_spec (JStr x) r) as (Hu & Hd & Hm & Hmeta).
           rewrite ?(userVotes_delete_valid u _ Hk), ?(userVotes_set_valid u _ _ Hk) in H.
           injection H as <-. cbn [userVotes thumbsUp thumbsDown set_userVotes].
           unfold entry. rewrite lookup_delete_eq, Hm, Hu, Hd. simpl.
           repeat split; try lia; try apply Hmeta.
           by rewrite delete_delete_eq.
        -- (* switch *)
           destruct t as [| | | |a|]; try discriminate.
           destruct (decrement_for_spec (JStr x) r) as (Hu & Hd & Hm & Hmeta).
           destruct (increment_for_spec (JStr a) (decrement_for (JStr x) r))
             as (Hu' & Hd' & Hm' & Hmeta').
           rewrite ?(userVotes_delete_valid u _ Hk), ?(userVotes_set_valid u _ _ Hk) in H.
           injection H as <-. cbn [userVotes thumbsUp thumbsDown set_userVotes].
           unfold entry. rewrite lookup_insert_eq, Hm', Hu', Hd', Hm, Hu, Hd. simpl.
           repeat split; try lia; try (eapply same_meta_trans; eauto).
           by rewrite delete_insert_eq.
      * (* an entry that is the empty string counts as no vote *)
        destruct t as [| | | |a|]; try discriminate.
        destruct (increment_for_spec (JStr a) r) as (Hu & Hd & Hm & Hmeta).
        rewrite ?(userVotes_delete_valid u _ Hk), ?(userVotes_set_valid u _ _ Hk) in H.
           injection H as <-. cbn [userVotes thumbsUp thumbsDown set_userVotes].
        unfold entry. rewrite lookup_insert_eq, Hm, Hu, Hd. simpl.
        rewrite !(falsy_entry _ x) by done.
        repeat split; try lia; try apply Hmeta.
        by rewrite delete_insert_eq.
  - cbn [truthy negb] in H.
    destruct (t === JStr "remove") eqn:Hrem; [discriminate|].
    destruct t as [| | | |a|]; try discriminate.
    destruct (increment_for_spec (JStr a) r) as (Hu & Hd & Hm & Hmeta).
    rewrite ?(userVotes_delete_valid u _ Hk), ?(userVotes_set_valid u _ _ Hk) in H.
           injection H as <-. cbn [userVotes thumbsUp thumbsDown set_userVotes].
    unfold entry. rewrite lookup_insert_eq, Hm, Hu, Hd. simpl.
    repeat split; try lia; try apply Hmeta.
    by rewrite delete_insert_eq.
Qed.

Lemma usefulness_update_valid_key (u : string) (t : value) (r r' : Review) :
  usefulness_update (JStr u) t r = Normal r' → valid_key u = true.
Proof.
  intros H. destruct (valid_key u) eqn:Hk; [reflexivity|].
  destruct (usefulness_update_invalid_key u t r r' Hk H).
Qed.

Lemma usefulness_update_count_inv (k t : value) (r r' : Review) :
  usefulness_update k t r = Normal r' → count_inv r → count_inv r'.
Proof.
  intros H [Hup Hdown].
  destruct (usefulness_update_ledger k t r r' H) as (u & _ & Hdel & Hu & Hd & _).
  unfold count_inv.
  rewrite (count_delete "like" u (userVotes r')), (count_delete "dislike" u (userVotes r')).
  rewrite (count_delete "like" u (userVotes r)) in Hup.
  rewrite (count_delete "dislike" u (userVotes r)) in Hdown.
  rewrite Hdel. unfold entry in Hu, Hd. lia.
Qed.

Lemma count_inv_nonneg (r : Review) : count_inv r → counters_nonneg r.
Proof. intros [Hup Hdown]. unfold counters_nonneg. lia. Qed.

(** ** One usefulness request on the collection *)

(** The guard of line 444 lets a request through exactly when the user is
    truthy and the action is one of the three literals. *)
Lemma guard_passes (u a : string) :
  u ≠ EmptyString → In a ["like"; "dislike"; "remove"] →
  negb (truthy (JStr u)) || negb (truthy (JStr a))
  || negb (includes ["like"; "dislike"; "remove"] (JStr a)) = false.
Proof.
  intros Hu Ha. rewrite (truthy_JStr u Hu).
  destruct Ha as [<-|[<-|[<-|[]]]]; reflexivity.
Qed.

Lemma post_usefulness_found (rid u a : string) (db : Store) (r : Review) :
  u ≠ EmptyString → In a ["like"; "dislike"; "remove"] →
  findById (JStr rid) db = Some r →
  post_reviews_usefulness (mkUsefulness (JStr rid) (JStr u) (JStr a)) db
  = match usefulness_update (JStr u) (JStr a) r with
    | Return resp => (resp, db)
    | Throw => (res_error 500 "Failed to update review usefulness", db)
    | Normal updatedReview =>
        (res_json (ReviewJson updatedReview), save updatedReview db)
    end.
Proof.
  intros Hu Ha Hf. unfold post_reviews_usefulness.
  cbn [reviewId userUUID type]. by rewrite (guard_passes u a Hu Ha), Hf.
Qed.

(** Either the request is answered with an error and the collection is left
    as it was, or a loaded document went through [usefulness_update] and was
    saved. *)
Lemma post_usefulness_cases (body : usefulness_body) (db : Store) :
  (∃ n msg, n ≠ 200%nat ∧ post_reviews_usefulness body db = (res_error n msg, db))
  ∨ (∃ r r', findById (reviewId body) db = Some r
       ∧ usefulness_update (userUUID body) (type body) r = Normal r'
       ∧ post_reviews_usefulness body db = (res_json (ReviewJson r'), save r' db)).
Proof.
  unfold post_reviews_usefulness.
  destruct (negb (truthy (userUUID body)) || negb (truthy (type body))
            || negb (includes ["like"; "dislike"; "remove"] (type body)));
    [left; eexists _, _; split; [|reflexivity]; lia|].
  destruct (findById (reviewId body) db) as [r|];
    [|left; eexists _, _; split; [|reflexivity]; lia].
  destruct (usefulness_update (userUUID body) (type body) r) as [r'|resp|] eqn:Hupd.
  - right. by exists r, r'.
  - left. exists 400%nat, "No vote to remove". split; [lia|].
    unfold usefulness_update in Hupd. cbv zeta in Hupd.
    destruct (type body === JStr "remove").
    + destruct (negb (truthy (userVotes_get (userUUID body) r))).
      * by injection Hupd as <-.
      * by apply userVotes_delete_not_Return in Hupd.
    + destruct (truthy (userVotes_get (userUUID body) r)).
      * destruct (userVotes_get (userUUID body) r === type body).
        -- by apply userVotes_delete_not_Return in Hupd.
        -- by apply userVotes_set_not_Return in Hupd.
      * by apply userVotes_set_not_Return in Hupd.
  - left. eexists _, _; split; [|reflexivity]; lia.
Qed.

(** What one request does to the review stored under [rid]: it leaves it as
    it was, or the request was for [rid] and the review is the one
    [usefulness_update] produced. *)
Lemma post_usefulness_lookup
    (body : usefulness_body) (db : Store) (rid : string) (r : Review) :
  findById (JStr rid) db = Some r →
  findById (JStr rid) (snd (post_reviews_usefulness body db)) = Some r
  ∨ (∃ r', reviewId body = JStr rid
       ∧ usefulness_update (userUUID body) (type body) r = Normal r'
       ∧ post_reviews_usefulness body db = (res_json (ReviewJson r'), save r' db)
       ∧ findById (JStr rid) (save r' db) = Some r').
Proof.
  intros Hf.
  destruct (post_usefulness_cases body db)
    as [(n & msg & _ & ->)|(r0 & r' & Hf0 & Hupd & Hpost)]; [by left|].
  destruct (usefulness_update_ledger _ _ _ _ Hupd) as (_ & _ & _ & _ & _ & Hid & _).
  destruct (reviewId body) as [| | | |rid0|] eqn:Hrid; try discriminate.
  pose proof (findById_id _ _ _ Hf0) as Hid0.
  destruct (decide (rid0 = rid)) as [->|Hne].
  - right. rewrite Hf in Hf0. injection Hf0 as <-.
    exists r'. repeat split; try assumption. by apply (findById_save rid db r).
  - left. rewrite Hpost. cbn [snd]. rewrite findById_save_other; [assumption|].
    congruence.
Qed.

Lemma post_usefulness_count_inv
    (body : usefulness_body) (db : Store) (rid : string) (r : Review) :
  findById (JStr rid) db = Some r → count_inv r →
  ∃ r', findById (JStr rid) (snd (post_reviews_usefulness body db)) = Some r'
        ∧ count_inv r'.
Proof.
  intros Hf Hinv.
  destruct (post_usefulness_lookup body db rid r Hf)
    as [Hsame|(r' & _ & Hupd & -> & Hf')].
  - by exists r.
  - exists r'. split; [assumption|].
    by apply (usefulness_update_count_inv _ _ _ _ Hupd).
Qed.

Lemma usefulness_run_inv
    (bodies : list usefulness_body) (db : Store) (rid : string) (r : Review) :
  findById (JStr rid) db = Some r → count_inv r →
  ∃ r', findById (JStr rid) (usefulness_run bodies db) = Some r' ∧ count_inv r'.
Proof.
  unfold usefulness_run. revert db r.
  induction bodies as [|b bs IH]; intros db r Hf Hinv; simpl; [by exists r|].
  destruct (post_usefulness_count_inv b db rid r Hf Hinv) as (r1 & Hf1 & Hinv1).
  by apply (IH _ r1).
Qed.

(** ** The four branches of [usefulness_update] *)

Lemma strict_eq_JStr_false (x y : string) : x ≠ y → (JStr x === JStr y) = false.
Proof. intros H. simpl. by destruct (String.eqb_spec x y). Qed.

Lemma update_first_vote (u a : string) (r : Review) :
  valid_key u = true →
  userVotes r !! u = None → a ≠ "remove" →
  usefulness_update (JStr u) (JStr a) r
  = userVotes_set (JStr u) (JStr a) (increment_for (JStr a) r).
Proof.
  intros Hk Hv Ha. unfold usefulness_update.
  rewrite (userVotes_get_valid u r Hk), Hv.
  by rewrite (strict_eq_JStr_false a "remove" Ha).
Qed.

Lemma update_toggle_off (u a : string) (r : Review) :
  valid_key u = true →
  userVotes r !! u = Some a → a ≠ EmptyString → a ≠ "remove" →
  usefulness_update (JStr u) (JStr a) r
  = userVotes_delete (JStr u) (decrement_for (JStr a) r).
Proof.
  intros Hk Hv Hne Ha. unfold usefulness_update.
  rewrite (userVotes_get_valid u r Hk), Hv.
  rewrite (strict_eq_JStr_false a "remove" Ha), (truthy_JStr a Hne).
  cbn [strict_eq]. by rewrite String.eqb_refl.
Qed.

Lemma update_switch (u x a : string) (r : Review) :
  valid_key u = true →
  userVotes r !! u = Some x → x ≠ EmptyString → a ≠ "remove" → x ≠ a →
  usefulness_update (JStr u) (JStr a) r
  = userVotes_set (JStr u) (JStr a)
      (increment_for (JStr a) (decrement_for (JStr x) r)).
Proof.
  intros Hk Hv Hne Ha Hxa. unfold usefulness_update.
  rewrite (userVotes_get_valid u r Hk), Hv.
  by rewrite (strict_eq_JStr_false a "remove" Ha), (truthy_JStr x Hne),
    (strict_eq_JStr_false x a Hxa).
Qed.

Lemma update_remove (u x : string) (r : Review) :
  valid_key u = true →
  userVotes r !! u = Some x → x ≠ EmptyString →
  usefulness_update (JStr u) (JStr "remove") r
  = userVotes_delete (JStr u) (decrement_for (JStr x) r).
Proof.
  intros Hk Hv Hne. unfold usefulness_update.
  rewrite (userVotes_get_valid u r Hk), Hv.
  rewrite (truthy_JStr x Hne). reflexivity.
Qed.

Lemma review_eq (r r' : Review) :
  same_meta r r' → thumbsUp r' = thumbsUp r → thumbsDown r' = thumbsDown r →
  userVotes r' = userVotes r → r' = r.
Proof.
  destruct r, r'. unfold same_meta. simpl. intros (-> & -> & -> & -> & -> & ->).
  by intros -> -> ->.
Qed.


(** * The properties of the specification *)

(** ** The scenario of section 8 *)

(** Start from a fresh review; ["u1"] sends [like], then [dislike], then
    [remove], then [remove] again. *)
Example ledger_scenario :
  let req a := mkUsefulness (JStr "r1") (JStr "u1") (JStr a) in
  let disliked :=
    set_userVotes (<["u1" := "dislike"]> ∅) (set_thumbsDown 1 review0) in
  post_reviews_usefulness (req "like") [review0]
  = (res_json (ReviewJson review0_liked), [review0_liked])
  ∧ post_reviews_usefulness (req "dislike") [review0_liked]
    = (res_json (ReviewJson disliked), [disliked])
  ∧ post_reviews_usefulness (req "remove") [disliked]
    = (res_json (ReviewJson review0), [review0])
  ∧ post_reviews_usefulness (req "remove") [review0]
    = (res_error 400 "No vote to remove", [review0]).
Proof. repeat split; vm_compute; reflexivity. Qed.

(** ** C1: the transition table *)

(** C1, as stated, fails for a user whose identifier the vote map refuses
    as a key: the first [like] of user ["u.1"] is answered 500 by the
    [catch] of line 506 and nothing is recorded, where the table has the cell
    (none, like). *)
Lemma dotted_key_breaks_transition_table :
  ¬ (∀ (db : Store) (rid u : string) (r : Review) (cv : option Vote) (a : Action),
       u ≠ EmptyString →
       findById (JStr rid) db = Some r →
       userVotes r !! u = vote_literal <$> cv →
       post_reviews_usefulness
         (mkUsefulness (JStr rid) (JStr u) (JStr (action_literal a))) db
       = match applyVote cv a with
         | Some res =>
             (res_json (ReviewJson (apply_result u res r)),
              save (apply_result u res r) db)
         | None => (res_error 400 "No vote to remove", db)
         end).
Proof.
  intros H.
  specialize (H [review0] "r1" "u.1" review0 None ActLike).
  assert (Hpost : post_reviews_usefulness
                    (mkUsefulness (JStr "r1") (JStr "u.1") (JStr "like")) [review0]
                  = (res_error 500 "Failed to update review usefulness", [review0]))
    by reflexivity.
  cbn [action_literal] in H. rewrite Hpost in H.
  discriminate H; [done | reflexivity | reflexivity].
Qed.

(** C1 (amended).  For a user whose identifier is a key the vote map
    accepts, the usefulness handler implements the three-by-three transition
    table: for an existing review [r], a user [u] whose recorded vote is
    [cv] (none, like or dislike) and a requested action [a] (like, dislike or
    remove), the handler answers and stores exactly the review obtained by
    applying the deltas and the new vote of [applyVote cv a]; in the one
    cell without a transition (remove with no vote) it answers
    400 "No vote to remove" and leaves the collection as it was. *)
Theorem usefulness_implements_transition_table
    (db : Store) (rid u : string) (r : Review) (cv : option Vote) (a : Action) :
  u ≠ EmptyString →
  valid_key u = true →
  findById (JStr rid) db = Some r →
  userVotes r !! u = vote_literal <$> cv →
  post_reviews_usefulness
    (mkUsefulness (JStr rid) (JStr u) (JStr (action_literal a))) db
  = match applyVote cv a with
    | Some res =>
        (res_json (ReviewJson (apply_result u res r)), save (apply_result u res r) db)
    | None => (res_error 400 "No vote to remove", db)
    end.
Proof.
  intros Hu Hk Hf Hcv.
  rewrite (post_usefulness_found rid u (action_literal a) db r Hu); [|by destruct a; simpl; auto|done].
  unfold usefulness_update, userVotes_set, userVotes_delete.
  rewrite (userVotes_get_valid u r Hk), Hcv, Hk.
  destruct cv as [[]|], a; simpl; unfold apply_result;
    rewrite ?Z.add_0_r; reflexivity.
Qed.

Lemma usefulness_implements_transition_table_witness :
  "u1" ≠ EmptyString
  ∧ valid_key "u1" = true
  ∧ findById (JStr "r1") [review0_liked] = Some review0_liked
  ∧ userVotes review0_liked !! "u1" = vote_literal <$> Some like
  ∧ post_reviews_usefulness
      (mkUsefulness (JStr "r1") (JStr "u1") (JStr (action_literal ActDislike)))
      [review0_liked]
    = (res_json (ReviewJson (apply_result "u1" (Some dislike, -1, 1) review0_liked)),
       save (apply_result "u1" (Some dislike, -1, 1) review0_liked) [review0_liked]).
Proof.
  split; [done|]. split; [reflexivity|]. split; [reflexivity|]. split; [reflexivity|].
  apply (usefulness_implements_transition_table
           [review0_liked] "r1" "u1" review0_liked (Some like) ActDislike);
    [done | reflexivity | reflexivity | reflexivity].
Defined.

(** ** C2: the count invariant *)

(** C2, as stated, fails: the simple-increment route is a vote operation of
    the API that answers 200, and one call of it on a fresh review leaves
    [thumbsUp] at 1 with no entry in [userVotes]. *)
Lemma simple_vote_breaks_count_inv :
  ¬ (∀ (db : Store) (cs : list api_call) (rid : string) (r : Review),
       findById (JStr rid) db = Some r → count_inv r →
       api_all_ok cs db = true →
       ∃ r', findById (JStr rid) (api_run cs db) = Some r' ∧ count_inv r').
Proof.
  intros H.
  destruct (H [review0] [SimpleVote "r1" (JStr "like")] "r1" review0)
    as (r' & Hf & Hup & _).
  - reflexivity.
  - split; vm_compute; reflexivity.
  - reflexivity.
  - injection Hf as <-. vm_compute in Hup. discriminate.
Qed.

(** C2 (amended).  If a review has [thumbsUp] equal to the number of [like]
    entries and [thumbsDown] equal to the number of [dislike] entries of its
    [userVotes], the same holds for that review after any sequence of
    usefulness requests (whatever their bodies: a request answered with an
    error changes nothing). *)
Theorem usefulness_run_count_inv
    (bodies : list usefulness_body) (db : Store) (rid : string) (r : Review) :
  findById (JStr rid) db = Some r →
  thumbsUp r = Z.of_nat (count "like" (userVotes r)) →
  thumbsDown r = Z.of_nat (count "dislike" (userVotes r)) →
  ∃ r', findById (JStr rid) (usefulness_run bodies db) = Some r'
        ∧ thumbsUp r' = Z.of_nat (count "like" (userVotes r'))
        ∧ thumbsDown r' = Z.of_nat (count "dislike" (userVotes r')).
Proof.
  intros Hf Hup Hdown.
  apply (usefulness_run_inv bodies db rid r Hf). by split.
Qed.

(** The invariant on [review0_liked], carried through three requests of
    two users. *)
Lemma usefulness_run_count_inv_witness :
  findById (JStr "r1") [review0_liked] = Some review0_liked
  ∧ thumbsUp review0_liked = Z.of_nat (count "like" (userVotes review0_liked))
  ∧ thumbsDown review0_liked = Z.of_nat (count "dislike" (userVotes review0_liked))
  ∧ ∃ r', findById (JStr "r1")
            (usefulness_run
               [mkUsefulness (JStr "r1") (JStr "u1") (JStr "dislike");
                mkUsefulness (JStr "r1") (JStr "u2") (JStr "like");
                mkUsefulness (JStr "r1") (JStr "u1") (JStr "remove")]
               [review0_liked]) = Some r'
          ∧ thumbsUp r' = Z.of_nat (count "like" (userVotes r'))
          ∧ thumbsDown r' = Z.of_nat (count "dislike" (userVotes r')).
Proof.
  split; [reflexivity|].
  split; [vm_compute; reflexivity|].
  split; [vm_compute; reflexivity|].
  apply (usefulness_run_count_inv _ [review0_liked] "r1" review0_liked);
    [reflexivity | vm_compute; reflexivity | vm_compute; reflexivity].
Defined.

(** ** C3: counters never go negative *)

(** C3.  For a review that satisfies the count invariant: after one
    usefulness request, whatever its user and action, the review is still
    stored and neither its [thumbsUp] nor its [thumbsDown] is negative, and
    the review such a request on it returns has no negative counter either;
    after any sequence of usefulness requests the same holds. *)
Theorem usefulness_counters_never_negative
    (db : Store) (rid : string) (r : Review) :
  findById (JStr rid) db = Some r →
  count_inv r →
  (∀ body : usefulness_body,
      (∃ r', findById (JStr rid) (snd (post_reviews_usefulness body db)) = Some r'
             ∧ 0 <= thumbsUp r' ∧ 0 <= thumbsDown r')
      ∧ (∀ r', reviewId body = JStr rid →
               payload (fst (post_reviews_usefulness body db)) = ReviewJson r' →
               0 <= thumbsUp r' ∧ 0 <= thumbsDown r'))
  ∧ (∀ bodies : list usefulness_body,
      ∃ r', findById (JStr rid) (usefulness_run bodies db) = Some r'
            ∧ 0 <= thumbsUp r' ∧ 0 <= thumbsDown r').
Proof.
  intros Hf Hinv. split.
  - intros body. split.
    + destruct (post_usefulness_count_inv body db rid r Hf Hinv) as (r' & Hf' & Hinv').
      exists r'. split; [assumption|]. by apply count_inv_nonneg.
    + intros r' Hrid Hpay.
      destruct (post_usefulness_cases body db)
        as [(n & msg & _ & Hpost)|(r0 & r1 & Hf0 & Hupd & Hpost)];
        rewrite Hpost in Hpay; [discriminate|].
      simpl in Hpay. injection Hpay as <-.
      rewrite Hrid, Hf in Hf0. injection Hf0 as <-.
      apply count_inv_nonneg. by apply (usefulness_update_count_inv _ _ _ _ Hupd).
  - intros bodies.
    destruct (usefulness_run_inv bodies db rid r Hf Hinv) as (r' & Hf' & Hinv').
    exists r'. split; [assumption|]. by apply count_inv_nonneg.
Qed.

(** One vote recorded and one counted: removing it, and removing again,
    stops at zero. *)
Lemma usefulness_counters_never_negative_witness :
  findById (JStr "r1") [review0_liked] = Some review0_liked
  ∧ count_inv review0_liked
  ∧ (∃ r', findById (JStr "r1")
             (snd (post_reviews_usefulness
                     (mkUsefulness (JStr "r1") (JStr "u1") (JStr "remove"))
                     [review0_liked])) = Some r'
           ∧ 0 <= thumbsUp r' ∧ 0 <= thumbsDown r')
  ∧ (∃ r', findById (JStr "r1")
             (usefulness_run
                [mkUsefulness (JStr "r1") (JStr "u1") (JStr "remove");
                 mkUsefulness (JStr "r1") (JStr "u1") (JStr "remove");
                 mkUsefulness (JStr "r1") (JStr "u2") (JStr "dislike")]
                [review0_liked]) = Some r'
           ∧ 0 <= thumbsUp r' ∧ 0 <= thumbsDown r').
Proof.
  assert (Hf : findById (JStr "r1") [review0_liked] = Some review0_liked)
    by reflexivity.
  assert (Hinv : count_inv review0_liked) by (split; vm_compute; reflexivity).
  split; [exact Hf|]. split; [exact Hinv|]. split.
  - apply (proj1 (proj1 (usefulness_counters_never_negative
                           [review0_liked] "r1" review0_liked Hf Hinv) _)).
  - apply (proj2 (usefulness_counters_never_negative
                    [review0_liked] "r1" review0_liked Hf Hinv)).
Defined.

(** ** C4: invalid input *)

(** C4, as stated, fails for a missing [reviewId]: the guard of line 444
    checks [userUUID] and [type] only, and a request without [reviewId]
    reaches the lookup, which answers 404 "Review not found". *)
Lemma missing_reviewId_is_not_invalid_input :
  ¬ (∀ (body : usefulness_body) (db : Store),
       includes ["like"; "dislike"; "remove"] (type body) = false
       ∨ reviewId body = JUndefined ∨ userUUID body = JUndefined
       ∨ type body = JUndefined →
       post_reviews_usefulness body db = (res_error 400 "Invalid input", db)).
Proof.
  intros H.
  specialize (H (mkUsefulness JUndefined (JStr "u1") (JStr "like")) [review0]).
  assert (Hpost : post_reviews_usefulness
                    (mkUsefulness JUndefined (JStr "u1") (JStr "like")) [review0]
                  = (res_error 404 "Review not found", [review0]))
    by reflexivity.
  rewrite Hpost in H. discriminate H. right; left; reflexivity.
Qed.

(** C4 (amended).  A usefulness request whose action is not one of the three
    literals [like], [dislike], [remove], or whose [userUUID] or [type] is
    missing (or falsy in any other way), is answered 400 "Invalid input" and
    the collection is unchanged.  A request whose [reviewId] is missing,
    with a truthy user and one of the three actions, is refused as well and
    changes nothing, but the answer is 404 "Review not found". *)
Theorem usefulness_invalid_input (body : usefulness_body) (db : Store) :
  (includes ["like"; "dislike"; "remove"] (type body) = false
   ∨ truthy (userUUID body) = false ∨ truthy (type body) = false →
   post_reviews_usefulness body db = (res_error 400 "Invalid input", db))
  ∧ (reviewId body = JUndefined →
     truthy (userUUID body) = true →
     includes ["like"; "dislike"; "remove"] (type body) = true →
     post_reviews_usefulness body db = (res_error 404 "Review not found", db)).
Proof.
  unfold post_reviews_usefulness. split.
  - intros [H|[H|H]]; rewrite H; simpl; rewrite ?orb_true_r; reflexivity.
  - intros -> -> Hinc. rewrite Hinc.
    by destruct (includes_actions _ Hinc) as [Ht | [Ht | Ht]]; rewrite Ht.
Qed.

Lemma usefulness_invalid_input_witness :
  includes ["like"; "dislike"; "remove"] (JStr "upvote") = false
  ∧ post_reviews_usefulness
      (mkUsefulness (JStr "r1") (JStr "u1") (JStr "upvote")) [review0_liked]
    = (res_error 400 "Invalid input", [review0_liked])
  ∧ truthy JUndefined = false
  ∧ post_reviews_usefulness
      (mkUsefulness (JStr "r1") JUndefined (JStr "like")) [review0_liked]
    = (res_error 400 "Invalid input", [review0_liked])
  ∧ truthy (JStr "u1") = true
  ∧ includes ["like"; "dislike"; "remove"] (JStr "like") = true
  ∧ post_reviews_usefulness
      (mkUsefulness JUndefined (JStr "u1") (JStr "like")) [review0_liked]
    = (res_error 404 "Review not found", [review0_liked]).
Proof.
  split; [reflexivity|]. split.
  { apply (proj1 (usefulness_invalid_input
                    (mkUsefulness (JStr "r1") (JStr "u1") (JStr "upvote"))
                    [review0_liked])).
    left. reflexivity. }
  split; [reflexivity|]. split.
  { apply (proj1 (usefulness_invalid_input
                    (mkUsefulness (JStr "r1") JUndefined (JStr "like"))
                    [review0_liked])).
    right; left. reflexivity. }
  split; [reflexivity|]. split; [reflexivity|].
  apply (proj2 (usefulness_invalid_input
                  (mkUsefulness JUndefined (JStr "u1") (JStr "like"))
                  [review0_liked])); reflexivity.
Defined.

(** ** C5: nothing to remove *)

(** C5.  On an existing review, a [remove] by a user with no recorded vote
    is answered 400 "No vote to remove" and changes nothing.  A [remove] by
    a user whose recorded vote is truthy is answered 200.  And whatever the
    first [remove] of a user did, so in particular after a successful one,
    the same [remove] sent again is answered 400 "No vote to remove" and
    leaves the collection exactly as the first one left it. *)
Theorem remove_without_vote (db : Store) (rid u : string) (r : Review) :
  u ≠ EmptyString →
  findById (JStr rid) db = Some r →
  let remove := mkUsefulness (JStr rid) (JStr u) (JStr "remove") in
  (userVotes r !! u = None →
   post_reviews_usefulness remove db = (res_error 400 "No vote to remove", db))
  ∧ (truthy (userVotes_get (JStr u) r) = true →
     status (fst (post_reviews_usefulness remove db)) = 200%nat)
  ∧ post_reviews_usefulness remove (snd (post_reviews_usefulness remove db))
    = (res_error 400 "No vote to remove", snd (post_reviews_usefulness remove db)).
Proof.
  intros Hu Hf remove.
  assert (Hrem : In "remove" ["like"; "dislike"; "remove"]) by (simpl; auto).
  assert (Hnone : ∀ db0 r0, findById (JStr rid) db0 = Some r0 →
            truthy (userVotes_get (JStr u) r0) = false →
            post_reviews_usefulness remove db0
            = (res_error 400 "No vote to remove", db0)).
  { intros db0 r0 Hf0 Hv. unfold remove.
    rewrite (post_usefulness_found rid u "remove" db0 r0 Hu Hrem Hf0).
    unfold usefulness_update. cbv zeta. by rewrite Hv. }
  assert (Hsome : truthy (userVotes_get (JStr u) r) = true →
            post_reviews_usefulness remove db
            = (res_json (ReviewJson
                 (set_userVotes
                    (delete u (userVotes (decrement_for (userVotes_get (JStr u) r) r)))
                    (decrement_for (userVotes_get (JStr u) r) r))),
               save (set_userVotes
                       (delete u (userVotes (decrement_for (userVotes_get (JStr u) r) r)))
                       (decrement_for (userVotes_get (JStr u) r) r)) db)).
  { intros Hv. unfold remove.
    assert (Hk : valid_key u = true).
    { destruct (valid_key u) eqn:Hk; [reflexivity|].
      by rewrite (userVotes_get_invalid u r Hk) in Hv. }
    rewrite (post_usefulness_found rid u "remove" db r Hu Hrem Hf).
    unfold usefulness_update. cbv zeta. rewrite Hv.
    cbn [strict_eq negb]. rewrite String.eqb_refl.
    by rewrite (userVotes_delete_valid u _ Hk). }
  split; [|split].
  - intros Hv. apply (Hnone db r Hf). by rewrite (userVotes_get_None u r Hv).
  - intros Hv. by rewrite (Hsome Hv).
  - destruct (truthy (userVotes_get (JStr u) r)) eqn:Hv.
    + rewrite (Hsome eq_refl). cbn [snd].
      apply (Hnone _ (set_userVotes
                        (delete u (userVotes (decrement_for (userVotes_get (JStr u) r) r)))
                        (decrement_for (userVotes_get (JStr u) r) r))).
      * apply (findById_save rid db r); [assumption|].
        apply (decrement_for_spec (userVotes_get (JStr u) r) r).
      * rewrite userVotes_get_None; [reflexivity|].
        cbn [userVotes set_userVotes]. apply lookup_delete_eq.
    + rewrite (Hnone db r Hf Hv). cbn [snd]. by apply (Hnone db r).
Qed.

Lemma remove_without_vote_witness :
  "u1" ≠ EmptyString
  ∧ findById (JStr "r1") [review0_liked] = Some review0_liked
  ∧ findById (JStr "r1") [review0] = Some review0
  ∧ userVotes review0 !! "u1" = None
  ∧ post_reviews_usefulness
      (mkUsefulness (JStr "r1") (JStr "u1") (JStr "remove")) [review0]
    = (res_error 400 "No vote to remove", [review0])
  ∧ status (fst (post_reviews_usefulness
                   (mkUsefulness (JStr "r1") (JStr "u1") (JStr "remove"))
                   [review0_liked])) = 200%nat
  ∧ post_reviews_usefulness
      (mkUsefulness (JStr "r1") (JStr "u1") (JStr "remove"))
      (snd (post_reviews_usefulness
              (mkUsefulness (JStr "r1") (JStr "u1") (JStr "remove"))
              [review0_liked]))
    = (res_error 400 "No vote to remove",
       snd (post_reviews_usefulness
              (mkUsefulness (JStr "r1") (JStr "u1") (JStr "remove"))
              [review0_liked])).
Proof.
  assert (Hu : "u1" ≠ EmptyString) by done.
  assert (Hf1 : findById (JStr "r1") [review0_liked] = Some review0_liked)
    by reflexivity.
  assert (Hf0 : findById (JStr "r1") [review0] = Some review0) by reflexivity.
  split; [exact Hu|]. split; [exact Hf1|]. split; [exact Hf0|].
  split; [reflexivity|]. split.
  { apply (proj1 (remove_without_vote [review0] "r1" "u1" review0 Hu Hf0)).
    reflexivity. }
  split.
  { apply (proj1 (proj2 (remove_without_vote
                           [review0_liked] "r1" "u1" review0_liked Hu Hf1))).
    reflexivity. }
  apply (proj2 (proj2 (remove_without_vote
                         [review0_liked] "r1" "u1" review0_liked Hu Hf1))).
Defined.

(** ** C6: the toggle law *)




(** ** C7: the switch law *)

(** C7, as stated, fails for a user whose identifier the vote map refuses
    as a key: for user ["u.1"] the [like] is answered 500 and records
    nothing, so no [dislike] is recorded after the two requests. *)
Lemma dotted_key_breaks_switch_law :
  ¬ (∀ (db : Store) (rid u : string) (r : Review),
       u ≠ EmptyString →
       findById (JStr rid) db = Some r →
       userVotes r !! u = None →
       ∃ r1 r2 db1 db2,
         post_reviews_usefulness (mkUsefulness (JStr rid) (JStr u) (JStr "like")) db
         = (res_json (ReviewJson r1), db1)
         ∧ post_reviews_usefulness
             (mkUsefulness (JStr rid) (JStr u) (JStr "dislike")) db1
           = (res_json (ReviewJson r2), db2)
         ∧ findById (JStr rid) db2 = Some r2
         ∧ userVotes r2 !! u = Some "dislike"
         ∧ thumbsUp r2 = thumbsUp r
         ∧ thumbsDown r2 = thumbsDown r + 1).
Proof.
  intros H.
  destruct (H [review0] "r1" "u.1" review0) as (r1 & r2 & db1 & db2 & Hpost & _);
    [done | reflexivity | reflexivity |].
  assert (Hreal : post_reviews_usefulness
                    (mkUsefulness (JStr "r1") (JStr "u.1") (JStr "like")) [review0]
                  = (res_error 500 "Failed to update review usefulness", [review0]))
    by reflexivity.
  rewrite Hreal in Hpost. discriminate.
Qed.

(** C7 (amended).  For a user whose identifier is a key the vote map
    accepts and who has no recorded vote on an existing review, [like]
    followed by [dislike]: the recorded vote ends as [dislike], [thumbsUp]
    is back at its original value and [thumbsDown] is one above its original
    value. *)
Theorem switch_law (db : Store) (rid u : string) (r : Review) :
  u ≠ EmptyString →
  valid_key u = true →
  findById (JStr rid) db = Some r →
  userVotes r !! u = None →
  ∃ r1 r2 db1 db2,
    post_reviews_usefulness (mkUsefulness (JStr rid) (JStr u) (JStr "like")) db
    = (res_json (ReviewJson r1), db1)
    ∧ post_reviews_usefulness (mkUsefulness (JStr rid) (JStr u) (JStr "dislike")) db1
      = (res_json (ReviewJson r2), db2)
    ∧ findById (JStr rid) db2 = Some r2
    ∧ userVotes r2 !! u = Some "dislike"
    ∧ thumbsUp r2 = thumbsUp r
    ∧ thumbsDown r2 = thumbsDown r + 1.
Proof.
  intros Hu Hk Hf Hv.
  assert (Hlike : In "like" ["like"; "dislike"; "remove"]) by (simpl; auto).
  assert (Hdis : In "dislike" ["like"; "dislike"; "remove"]) by (simpl; auto).
  set (r1 := set_userVotes (<[u := "like"]> (userVotes r)) (increment_for (JStr "like") r)).
  set (r2 := set_userVotes (<[u := "dislike"]> (userVotes r1))
               (increment_for (JStr "dislike") (decrement_for (JStr "like") r1))).
  assert (Hf1 : findById (JStr rid) (save r1 db) = Some r1)
    by (by apply (findById_save rid db r)).
  assert (Hv1 : userVotes r1 !! u = Some "like") by apply lookup_insert_eq.
  exists r1, r2, (save r1 db), (save r2 (save r1 db)). repeat split.
  - rewrite (post_usefulness_found rid u "like" db r Hu Hlike Hf).
    rewrite (update_first_vote u "like" r Hk Hv) by done.
    by rewrite (userVotes_set_valid u _ _ Hk).
  - rewrite (post_usefulness_found rid u "dislike" _ r1 Hu Hdis Hf1).
    rewrite (update_switch u "like" "dislike" r1 Hk Hv1) by done.
    by rewrite (userVotes_set_valid u _ _ Hk).
  - by apply (findById_save rid _ r1).
  - apply lookup_insert_eq.
  - simpl. lia.
Qed.

Lemma switch_law_witness :
  "u1" ≠ EmptyString
  ∧ valid_key "u1" = true
  ∧ findById (JStr "r1") [review0] = Some review0
  ∧ userVotes review0 !! "u1" = None
  ∧ ∃ r1 r2 db1 db2,
      post_reviews_usefulness
        (mkUsefulness (JStr "r1") (JStr "u1") (JStr "like")) [review0]
      = (res_json (ReviewJson r1), db1)
      ∧ post_reviews_usefulness
          (mkUsefulness (JStr "r1") (JStr "u1") (JStr "dislike")) db1
        = (res_json (ReviewJson r2), db2)
      ∧ findById (JStr "r1") db2 = Some r2
      ∧ userVotes r2 !! "u1" = Some "dislike"
      ∧ thumbsUp r2 = thumbsUp review0
      ∧ thumbsDown r2 = thumbsDown review0 + 1.
Proof.
  split; [done|]. split; [reflexivity|]. split; [reflexivity|]. split; [reflexivity|].
  apply (switch_law [review0] "r1" "u1" review0);
    [done | reflexivity | reflexivity | reflexivity].
Defined.

(** ** C8: the simple increment *)

(** C8.  On an existing review, [POST /api/reviews/:id/vote] with [voteType]
    [like] answers the counters with [thumbsUp] one higher and stores a
    review that differs from the old one in [thumbsUp] only; with [dislike]
    the same for [thumbsDown]; [userVotes] is the same map in both cases, so
    a repeated request counts again.  Any other [voteType] is answered
    400 "Invalid vote type" and the collection is unchanged. *)
Theorem simple_vote_increments (db : Store) (id : string) (r : Review) :
  findById (JStr id) db = Some r →
  (∃ r', post_reviews_id_vote id (JStr "like") db
         = (res_json (CountersJson (thumbsUp r + 1) (thumbsDown r)), save r' db)
      ∧ findById (JStr id) (save r' db) = Some r'
      ∧ thumbsUp r' = thumbsUp r + 1 ∧ thumbsDown r' = thumbsDown r
      ∧ userVotes r' = userVotes r ∧ same_meta r r')
  ∧ (∃ r', post_reviews_id_vote id (JStr "dislike") db
         = (res_json (CountersJson (thumbsUp r) (thumbsDown r + 1)), save r' db)
      ∧ findById (JStr id) (save r' db) = Some r'
      ∧ thumbsUp r' = thumbsUp r ∧ thumbsDown r' = thumbsDown r + 1
      ∧ userVotes r' = userVotes r ∧ same_meta r r')
  ∧ (∀ voteType : value,
        voteType ≠ JStr "like" → voteType ≠ JStr "dislike" →
        post_reviews_id_vote id voteType db = (res_error 400 "Invalid vote type", db)).
Proof.
  intros Hf. unfold post_reviews_id_vote. rewrite Hf. split; [|split].
  - exists (set_thumbsUp (thumbsUp r + 1) r). repeat split.
    by apply (findById_save id db r).
  - exists (set_thumbsDown (thumbsDown r + 1) r). repeat split.
    by apply (findById_save id db r).
  - intros v Hl Hd.
    destruct (v === JStr "like") eqn:E1; [by apply strict_eq_literal in E1|].
    destruct (v === JStr "dislike") eqn:E2; [by apply strict_eq_literal in E2|].
    reflexivity.
Qed.

Lemma simple_vote_increments_witness :
  findById (JStr "r1") [review0_liked] = Some review0_liked
  ∧ post_reviews_id_vote "r1" (JStr "like") [review0_liked]
    = (res_json (CountersJson 2 0), [set_thumbsUp 2 review0_liked])
  ∧ post_reviews_id_vote "r1" (JStr "upvote") [review0_liked]
    = (res_error 400 "Invalid vote type", [review0_liked]).
Proof.
  assert (Hf : findById (JStr "r1") [review0_liked] = Some review0_liked)
    by reflexivity.
  split; [exact Hf|]. split; [reflexivity|].
  apply (proj2 (proj2 (simple_vote_increments [review0_liked] "r1" review0_liked Hf)));
    discriminate.
Defined.

(** ** C9: review creation *)

(** C9, as stated, fails: a submission that supplies all four fields, with
    the rating 0, is answered 400 "Missing required fields" and creates
    nothing, because line 421 tests the fields for truthiness.  This is so
    even when the schema and the store accept every document. *)
Lemma zero_rating_is_refused :
  ¬ (∀ (oid : string) (body : review_body) (db : Store),
       body_title body ≠ JUndefined → body_content body ≠ JUndefined →
       body_rating body ≠ JUndefined → body_product body ≠ JUndefined →
       ∃ r, post_reviews (λ _, true) oid body db
            = (mkResponse 201 (ReviewJson r), save_new r db)
            ∧ thumbsUp r = 0 ∧ thumbsDown r = 0 ∧ userVotes r = ∅).
Proof.
  intros H.
  destruct (H "r2"
              (mkReviewBody (JStr "Fast machine") (JStr "Runs cool and quiet")
                            (JNum (QArith_base.Qmake 0 1)) (JStr "Server PC"))
              [review0])
    as (r & Hpost & _); try discriminate.
Qed.

(** C9 (amended).  A submission in which the title, the content, the rating
    or the product name is missing, or is falsy in any other way (an empty
    text, the rating 0, [null], [false]), is answered
    400 "Missing required fields" and no review is created.  A submission in
    which all four are truthy creates a review exactly when the schema and
    the store accept the new document: then it is answered 201 with a new
    review that has [thumbsUp] and [thumbsDown] at 0 and an empty
    [userVotes] and is added to the collection; otherwise it is answered
    400 "Failed to save review" and no review is created. *)
Theorem post_reviews_requires_fields
    (accepts : Review → bool) (oid : string) (body : review_body) (db : Store) :
  (truthy (body_title body) = false ∨ truthy (body_content body) = false
   ∨ truthy (body_rating body) = false ∨ truthy (body_product body) = false →
   post_reviews accepts oid body db = (res_error 400 "Missing required fields", db))
  ∧ (truthy (body_title body) = true → truthy (body_content body) = true →
     truthy (body_rating body) = true → truthy (body_product body) = true →
     let newReview :=
       new_Review oid (body_title body) (body_content body) (body_rating body)
                  (body_product body) (JStr "product") in
     (accepts newReview = true →
      ∃ r, post_reviews accepts oid body db
           = (mkResponse 201 (ReviewJson r), save_new r db)
           ∧ _id r = oid
           ∧ thumbsUp r = 0 ∧ thumbsDown r = 0 ∧ userVotes r = ∅)
     ∧ (accepts newReview = false →
        post_reviews accepts oid body db = (res_error 400 "Failed to save review", db))).
Proof.
  unfold post_reviews. split.
  - intros [H|[H|[H|H]]]; rewrite H; simpl; rewrite ?orb_true_r; reflexivity.
  - intros -> -> -> ->. cbn [negb orb]. split; intros ->; [|reflexivity].
    eexists. by repeat split.
Qed.

Lemma post_reviews_requires_fields_witness :
  truthy JUndefined = false
  ∧ post_reviews (λ _, true) "r2"
      (mkReviewBody (JStr "Fast machine") (JStr "Runs cool and quiet")
                    JUndefined (JStr "Server PC")) [review0]
    = (res_error 400 "Missing required fields", [review0])
  ∧ (∃ r, post_reviews (λ _, true) "r2"
            (mkReviewBody (JStr "Quiet") (JStr "No fan noise at all")
                          (JNum (QArith_base.Qmake 4 1)) (JStr "Server PC"))
            [review0]
          = (mkResponse 201 (ReviewJson r), save_new r [review0])
          ∧ _id r = "r2"
          ∧ thumbsUp r = 0 ∧ thumbsDown r = 0 ∧ userVotes r = ∅)
  ∧ post_reviews (λ _, false) "r2"
      (mkReviewBody (JStr "Quiet") (JStr "No fan noise at all")
                    (JStr "abc") (JStr "Server PC"))
      [review0]
    = (res_error 400 "Failed to save review", [review0]).
Proof.
  split; [reflexivity|]. split.
  { apply (proj1 (post_reviews_requires_fields (λ _, true) "r2"
                    (mkReviewBody (JStr "Fast machine") (JStr "Runs cool and quiet")
                                  JUndefined (JStr "Server PC")) [review0])).
    right; right; left. reflexivity. }
  split.
  { apply (proj1 (proj2 (post_reviews_requires_fields (λ _, true) "r2"
                    (mkReviewBody (JStr "Quiet") (JStr "No fan noise at all")
                                  (JNum (QArith_base.Qmake 4 1)) (JStr "Server PC"))
                    [review0])
                  eq_refl eq_refl eq_refl eq_refl) eq_refl). }
  apply (proj2 (proj2 (post_reviews_requires_fields (λ _, false) "r2"
                  (mkReviewBody (JStr "Quiet") (JStr "No fan noise at all")
                                (JStr "abc") (JStr "Server PC"))
                  [review0])
                eq_refl eq_refl eq_refl eq_refl) eq_refl).
Defined.

(** ** C10: the frame of a usefulness vote *)

(** C10.  A usefulness request that is answered 200 was sent by a user [u]
    on a review [r] of the collection; the review [r'] it returns and stores
    under the same identifier has the [_id], [title], [content], [rating],
    [productName] and [reviewType] of [r], and the same entry as [r] in
    [userVotes] for every user other than [u].  No other review of the
    collection is touched. *)
Theorem usefulness_frame
    (body : usefulness_body) (db db' : Store) (resp : response) :
  post_reviews_usefulness body db = (resp, db') →
  status resp = 200%nat →
  ∃ u r r',
    userUUID body = JStr u
    ∧ findById (reviewId body) db = Some r
    ∧ resp = res_json (ReviewJson r')
    ∧ findById (reviewId body) db' = Some r'
    ∧ _id r' = _id r ∧ title r' = title r ∧ content r' = content r
    ∧ rating r' = rating r ∧ productName r' = productName r
    ∧ reviewType r' = reviewType r
    ∧ (∀ u', u' ≠ u → userVotes r' !! u' = userVotes r !! u')
    ∧ (∀ id, id ≠ reviewId body → findById id db' = findById id db).
Proof.
  intros Hpost Hst.
  destruct (post_usefulness_cases body db)
    as [(n & msg & Hn & Herr)|(r & r' & Hf & Hupd & Hok)].
  { rewrite Herr in Hpost. injection Hpost as <- <-. simpl in Hst. contradiction. }
  rewrite Hok in Hpost. injection Hpost as <- <-.
  destruct (usefulness_update_ledger _ _ _ _ Hupd)
    as (u & Hk & Hdel & _ & _ & Hmeta).
  pose proof Hmeta as (Hid & Ht & Hc & Hr & Hp & Hy).
  destruct (reviewId body) as [| | | |rid|] eqn:Hrid; try discriminate.
  pose proof (findById_id _ _ _ Hf) as Hrid'.
  exists u, r, r'. repeat split; try assumption.
  - by apply (findById_save rid db r).
  - intros u' Hne.
    rewrite <- (lookup_delete_ne (userVotes r') u u') by done.
    rewrite <- (lookup_delete_ne (userVotes r) u u') by done.
    by rewrite Hdel.
  - intros id Hne. apply findById_save_other. congruence.
Qed.

Lemma usefulness_frame_witness :
  post_reviews_usefulness
    (mkUsefulness (JStr "r1") (JStr "u2") (JStr "dislike")) [review0_liked]
  = (res_json (ReviewJson
                 (set_userVotes (<["u2" := "dislike"]> (userVotes review0_liked))
                                (set_thumbsDown 1 review0_liked))),
     [set_userVotes (<["u2" := "dislike"]> (userVotes review0_liked))
                    (set_thumbsDown 1 review0_liked)])
  ∧ ∃ u r r',
      JStr "u2" = JStr u
      ∧ findById (JStr "r1") [review0_liked] = Some r
      ∧ res_json (ReviewJson
                    (set_userVotes (<["u2" := "dislike"]> (userVotes review0_liked))
                                   (set_thumbsDown 1 review0_liked)))
        = res_json (ReviewJson r')
      ∧ findById (JStr "r1")
          [set_userVotes (<["u2" := "dislike"]> (userVotes review0_liked))
                         (set_thumbsDown 1 review0_liked)] = Some r'
      ∧ _id r' = _id r ∧ title r' = title r ∧ content r' = content r
      ∧ rating r' = rating r ∧ productName r' = productName r
      ∧ reviewType r' = reviewType r
      ∧ (∀ u', u' ≠ u → userVotes r' !! u' = userVotes r !! u')
      ∧ (∀ id, id ≠ JStr "r1" →
           findById id
             [set_userVotes (<["u2" := "dislike"]> (userVotes review0_liked))
                            (set_thumbsDown 1 review0_liked)]
           = findById id [review0_liked]).
Proof.
  split; [reflexivity|].
  apply (usefulness_frame
           (mkUsefulness (JStr "r1") (JStr "u2") (JStr "dislike"))
           [review0_liked]); reflexivity.
Defined.

(** * Further properties of the review routes *)

(** ** What a request does to one stored review *)

Lemma save_ids (r : Review) (db : Store) : map _id (save r db) = map _id db.
Proof.
  induction db as [|d ds IH]; simpl; [reflexivity|].
  destruct (String.eqb_spec (_id d) (_id r)) as [Hd|Hd]; simpl; congruence.
Qed.

Lemma post_usefulness_ok_guard (body : usefulness_body) (db : Store) :
  status (fst (post_reviews_usefulness body db)) = 200%nat →
  includes ["like"; "dislike"; "remove"] (type body) = true.
Proof.
  unfold post_reviews_usefulness.
  destruct (includes ["like"; "dislike"; "remove"] (type body)); [reflexivity|].
  rewrite !orb_true_r. simpl. discriminate.
Qed.

(** Either the simple vote is answered with an error and changes nothing, or
    it raised one counter of the loaded review and saved it. *)
Lemma post_vote_cases (id : string) (voteType : value) (db : Store) :
  (∃ n msg, n ≠ 200%nat
     ∧ post_reviews_id_vote id voteType db = (res_error n msg, db))
  ∨ (∃ r r', findById (JStr id) db = Some r
       ∧ (r' = set_thumbsUp (thumbsUp r + 1) r
          ∨ r' = set_thumbsDown (thumbsDown r + 1) r)
       ∧ post_reviews_id_vote id voteType db
         = (res_json (CountersJson (thumbsUp r') (thumbsDown r')), save r' db)).
Proof.
  unfold post_reviews_id_vote.
  destruct (findById (JStr id) db) as [r|];
    [|left; eexists _, _; split; [|reflexivity]; lia].
  destruct (voteType === JStr "like").
  { right. exists r, (set_thumbsUp (thumbsUp r + 1) r).
    split; [reflexivity|]. split; [by left | reflexivity]. }
  destruct (voteType === JStr "dislike").
  { right. exists r, (set_thumbsDown (thumbsDown r + 1) r).
    split; [reflexivity|]. split; [by right | reflexivity]. }
  left; eexists _, _; split; [|reflexivity]; lia.
Qed.

(** A property of reviews that every successful usefulness update and every
    simple increment keeps is kept, for the review stored under [rid], by
    every call of the API. *)
Lemma api_step_preserves (P : Review → Prop) :
  (∀ k t r r', includes ["like"; "dislike"; "remove"] t = true →
               usefulness_update k t r = Normal r' → P r → P r') →
  (∀ r, P r → P (set_thumbsUp (thumbsUp r + 1) r)) →
  (∀ r, P r → P (set_thumbsDown (thumbsDown r + 1) r)) →
  ∀ (c : api_call) (db : Store) (rid : string) (r : Review),
    findById (JStr rid) db = Some r → P r →
    ∃ r', findById (JStr rid) (snd (api_step c db)) = Some r' ∧ P r'.
Proof.
  intros Hupd Hup Hdown [body|id voteType] db rid r Hf HP; cbn [api_step].
  - destruct (post_usefulness_lookup body db rid r Hf)
      as [Hsame|(r' & _ & Hu & Hpost & Hf')]; [by exists r|].
    exists r'. rewrite Hpost. split; [assumption|].
    apply (Hupd _ _ _ _ (post_usefulness_ok_guard body db ltac:(by rewrite Hpost)) Hu HP).
  - destruct (post_vote_cases id voteType db)
      as [(n & msg & _ & ->)|(r0 & r' & Hf0 & Hr' & ->)]; [by exists r|].
    pose proof (findById_id _ _ _ Hf0) as Hid0. cbn [snd].
    assert (Hid' : _id r' = _id r0) by (by destruct Hr' as [-> | ->]).
    destruct (decide (id = rid)) as [->|Hne].
    + rewrite Hf in Hf0. injection Hf0 as <-. exists r'.
      split; [by apply (findById_save rid db r)|].
      destruct Hr' as [-> | ->]; auto.
    + exists r. split; [|assumption].
      rewrite findById_save_other; [assumption|]. congruence.
Qed.

Lemma api_run_preserves (P : Review → Prop) :
  (∀ k t r r', includes ["like"; "dislike"; "remove"] t = true →
               usefulness_update k t r = Normal r' → P r → P r') →
  (∀ r, P r → P (set_thumbsUp (thumbsUp r + 1) r)) →
  (∀ r, P r → P (set_thumbsDown (thumbsDown r + 1) r)) →
  ∀ (cs : list api_call) (db : Store) (rid : string) (r : Review),
    findById (JStr rid) db = Some r → P r →
    ∃ r', findById (JStr rid) (api_run cs db) = Some r' ∧ P r'.
Proof.
  intros Hupd Hup Hdown cs.
  induction cs as [|c cs IH]; intros db rid r Hf HP; simpl; [by exists r|].
  destruct (api_step_preserves P Hupd Hup Hdown c db rid r Hf HP) as (r1 & Hf1 & HP1).
  by apply (IH _ rid r1).
Qed.

(** The same for sequences of usefulness requests alone. *)
Lemma usefulness_run_preserves (P : Review → Prop) :
  (∀ k t r r', includes ["like"; "dislike"; "remove"] t = true →
               usefulness_update k t r = Normal r' → P r → P r') →
  ∀ (bodies : list usefulness_body) (db : Store) (rid : string) (r : Review),
    findById (JStr rid) db = Some r → P r →
    ∃ r', findById (JStr rid) (usefulness_run bodies db) = Some r' ∧ P r'.
Proof.
  intros Hupd bodies. unfold usefulness_run.
  induction bodies as [|b bs IH]; intros db rid r Hf HP; simpl; [by exists r|].
  destruct (post_usefulness_lookup b db rid r Hf)
    as [Hsame|(r' & _ & Hu & Hpost & Hf')]; [by apply (IH _ rid r)|].
  apply (IH _ rid r'); [by rewrite Hpost|].
  apply (Hupd _ _ _ _ (post_usefulness_ok_guard b db ltac:(by rewrite Hpost)) Hu HP).
Qed.

(** ** Refused requests *)

(** X1.  A request that one of the three writing routes refuses changes
    nothing: whenever the usefulness route or the simple-vote route answers
    with a status other than 200, or the creation route with a status other
    than 201, the collection after the request is the collection before it.
    This includes the 500 of the usefulness route, where the loaded document
    was already modified when the call threw. *)
Theorem refused_request_changes_nothing (db : Store) :
  (∀ body : usefulness_body,
      status (fst (post_reviews_usefulness body db)) ≠ 200%nat →
      snd (post_reviews_usefulness body db) = db)
  ∧ (∀ (id : string) (voteType : value),
      status (fst (post_reviews_id_vote id voteType db)) ≠ 200%nat →
      snd (post_reviews_id_vote id voteType db) = db)
  ∧ (∀ (accepts : Review → bool) (oid : string) (body : review_body),
      status (fst (post_reviews accepts oid body db)) ≠ 201%nat →
      snd (post_reviews accepts oid body db) = db).
Proof.
  split; [|split].
  - intros body Hst.
    destruct (post_usefulness_cases body db)
      as [(n & msg & _ & ->)|(r & r' & _ & _ & Hpost)]; [reflexivity|].
    rewrite Hpost in Hst. by destruct Hst.
  - intros id voteType Hst.
    destruct (post_vote_cases id voteType db)
      as [(n & msg & _ & ->)|(r & r' & _ & _ & Hpost)]; [reflexivity|].
    rewrite Hpost in Hst. by destruct Hst.
  - intros accepts oid body. unfold post_reviews.
    destruct (negb (truthy (body_title body)) || negb (truthy (body_content body))
              || negb (truthy (body_rating body)) || negb (truthy (body_product body)));
      [reflexivity|].
    cbv zeta. destruct (accepts _); [|reflexivity].
    intros Hst. by destruct Hst.
Qed.

(** A usefulness request of a user whose key is not a string, a simple vote
    with an unknown literal, and a submission the schema refuses. *)
Lemma refused_request_changes_nothing_witness :
  status (fst (post_reviews_usefulness
                 (mkUsefulness (JStr "r1") (JBool true) (JStr "like"))
                 [review0_liked])) ≠ 200%nat
  ∧ snd (post_reviews_usefulness
           (mkUsefulness (JStr "r1") (JBool true) (JStr "like"))
           [review0_liked]) = [review0_liked]
  ∧ status (fst (post_reviews_id_vote "r1" (JStr "upvote") [review0_liked])) ≠ 200%nat
  ∧ snd (post_reviews_id_vote "r1" (JStr "upvote") [review0_liked]) = [review0_liked]
  ∧ status (fst (post_reviews (λ _, false) "r2"
                   (mkReviewBody (JStr "Quiet") (JStr "text") (JStr "abc") (JStr "pc"))
                   [review0_liked])) ≠ 201%nat
  ∧ snd (post_reviews (λ _, false) "r2"
           (mkReviewBody (JStr "Quiet") (JStr "text") (JStr "abc") (JStr "pc"))
           [review0_liked]) = [review0_liked].
Proof.
  assert (H1 : status (fst (post_reviews_usefulness
                 (mkUsefulness (JStr "r1") (JBool true) (JStr "like"))
                 [review0_liked])) ≠ 200%nat) by (vm_compute; lia).
  assert (H2 : status (fst (post_reviews_id_vote "r1" (JStr "upvote") [review0_liked]))
               ≠ 200%nat) by (vm_compute; lia).
  assert (H3 : status (fst (post_reviews (λ _, false) "r2"
                   (mkReviewBody (JStr "Quiet") (JStr "text") (JStr "abc") (JStr "pc"))
                   [review0_liked])) ≠ 201%nat) by (vm_compute; lia).
  split; [exact H1|]. split.
  { apply (proj1 (refused_request_changes_nothing [review0_liked]) _ H1). }
  split; [exact H2|]. split.
  { apply (proj1 (proj2 (refused_request_changes_nothing [review0_liked])) _ _ H2). }
  split; [exact H3|].
  apply (proj2 (proj2 (refused_request_changes_nothing [review0_liked])) _ _ _ H3).
Defined.

(** ** Votes never add or drop a review *)

(** X2.  Voting never creates, deletes or reorders reviews: after any
    sequence of usefulness requests and simple votes, accepted or refused,
    the collection holds the same identifiers in the same order. *)
Theorem votes_keep_identifiers (cs : list api_call) (db : Store) :
  map _id (api_run cs db) = map _id db.
Proof.
  revert db. induction cs as [|c cs IH]; intros db; simpl; [reflexivity|].
  rewrite IH. destruct c as [body|id voteType]; simpl.
  - destruct (post_usefulness_cases body db)
      as [(n & msg & _ & ->)|(r & r' & _ & _ & ->)]; [reflexivity|].
    apply save_ids.
  - destruct (post_vote_cases id voteType db)
      as [(n & msg & _ & ->)|(r & r' & _ & _ & ->)]; [reflexivity|].
    apply save_ids.
Qed.

(** ** Counters under both vote routes *)

Lemma usefulness_update_count_le (k t : value) (r r' : Review) :
  usefulness_update k t r = Normal r' → count_le r → count_le r'.
Proof.
  intros H [Hup Hdown].
  destruct (usefulness_update_ledger k t r r' H) as (u & _ & Hdel & Hu & Hd & _).
  unfold count_le.
  rewrite (count_delete "like" u (userVotes r')), (count_delete "dislike" u (userVotes r')).
  rewrite (count_delete "like" u (userVotes r)) in Hup.
  rewrite (count_delete "dislike" u (userVotes r)) in Hdown.
  rewrite Hdel. unfold entry in Hu, Hd. lia.
Qed.

(** X3.  With both vote routes in play the counters can run ahead of the
    recorded votes but never fall behind them: if [thumbsUp] is at least the
    number of [like] entries and [thumbsDown] at least the number of
    [dislike] entries, this still holds after any sequence of usefulness
    requests and simple votes, and so neither counter is ever negative. *)
Theorem counters_cover_votes
    (cs : list api_call) (db : Store) (rid : string) (r : Review) :
  findById (JStr rid) db = Some r →
  Z.of_nat (count "like" (userVotes r)) <= thumbsUp r →
  Z.of_nat (count "dislike" (userVotes r)) <= thumbsDown r →
  ∃ r', findById (JStr rid) (api_run cs db) = Some r'
        ∧ Z.of_nat (count "like" (userVotes r')) <= thumbsUp r'
        ∧ Z.of_nat (count "dislike" (userVotes r')) <= thumbsDown r'
        ∧ 0 <= thumbsUp r' ∧ 0 <= thumbsDown r'.
Proof.
  intros Hf Hup Hdown.
  destruct (api_run_preserves count_le) with (cs := cs) (db := db) (rid := rid) (r := r)
    as (r' & Hf' & Hup' & Hdown'); try assumption.
  - intros k t r0 r1 _. apply usefulness_update_count_le.
  - intros r0 [H1 H2]. split; simpl; lia.
  - intros r0 [H1 H2]. split; simpl; lia.
  - by split.
  - exists r'. repeat split; try assumption; lia.
Qed.

(** Two simple likes, then the one recorded like is removed, twice. *)
Lemma counters_cover_votes_witness :
  findById (JStr "r1") [review0_liked] = Some review0_liked
  ∧ Z.of_nat (count "like" (userVotes review0_liked)) <= thumbsUp review0_liked
  ∧ Z.of_nat (count "dislike" (userVotes review0_liked)) <= thumbsDown review0_liked
  ∧ ∃ r', findById (JStr "r1")
            (api_run [SimpleVote "r1" (JStr "like");
                      Usefulness (mkUsefulness (JStr "r1") (JStr "u1") (JStr "remove"));
                      Usefulness (mkUsefulness (JStr "r1") (JStr "u1") (JStr "remove"));
                      SimpleVote "r1" (JStr "dislike")]
                     [review0_liked]) = Some r'
          ∧ Z.of_nat (count "like" (userVotes r')) <= thumbsUp r'
          ∧ Z.of_nat (count "dislike" (userVotes r')) <= thumbsDown r'
          ∧ 0 <= thumbsUp r' ∧ 0 <= thumbsDown r'.
Proof.
  split; [reflexivity|].
  split; [vm_compute; discriminate|].
  split; [vm_compute; discriminate|].
  apply (counters_cover_votes _ [review0_liked] "r1" review0_liked);
    [reflexivity | vm_compute; discriminate | vm_compute; discriminate].
Defined.

(** ** The simple vote touches one review *)

(** X4.  A simple vote touches at most the review it names, and of that
    review at most one counter: whatever the vote type and whatever the
    answer, the reviews stored under every other identifier stay as they
    were, and the named review, when there is one, is still stored with the
    same [userVotes] and the same other fields, with no counter lower than
    before and the two counters together at most one higher. *)
Theorem simple_vote_touches_one_review (id : string) (voteType : value) (db : Store) :
  (∀ id' : string, id' ≠ id →
     findById (JStr id') (snd (post_reviews_id_vote id voteType db))
     = findById (JStr id') db)
  ∧ (∀ r : Review, findById (JStr id) db = Some r →
       ∃ r', findById (JStr id) (snd (post_reviews_id_vote id voteType db)) = Some r'
             ∧ userVotes r' = userVotes r
             ∧ same_meta r r'
             ∧ thumbsUp r <= thumbsUp r' ∧ thumbsDown r <= thumbsDown r'
             ∧ thumbsUp r' + thumbsDown r' <= thumbsUp r + thumbsDown r + 1).
Proof.
  split.
  - intros id' Hne.
    destruct (post_vote_cases id voteType db)
      as [(n & msg & _ & ->)|(r & r' & Hf & Hr' & ->)]; [reflexivity|].
    cbn [snd]. apply findById_save_other.
    pose proof (findById_id _ _ _ Hf) as Hid.
    assert (Hid' : _id r' = _id r) by (by destruct Hr' as [-> | ->]).
    congruence.
  - intros r Hf.
    destruct (post_vote_cases id voteType db)
      as [(n & msg & _ & ->)|(r0 & r' & Hf0 & Hr' & ->)].
    + exists r. cbn [snd]. split; [assumption|]. split; [reflexivity|].
      split; [by repeat split|]. lia.
    + rewrite Hf in Hf0. injection Hf0 as <-. exists r'. cbn [snd].
      destruct Hr' as [-> | ->];
        (split; [by apply (findById_save id db r)|]);
        (split; [reflexivity|]); (split; [by repeat split|]); simpl; lia.
Qed.

Lemma simple_vote_touches_one_review_witness :
  "r2" ≠ "r1"
  ∧ findById (JStr "r2") (snd (post_reviews_id_vote "r1" (JStr "like") [review0_liked]))
    = findById (JStr "r2") [review0_liked]
  ∧ findById (JStr "r1") [review0_liked] = Some review0_liked
  ∧ ∃ r', findById (JStr "r1")
            (snd (post_reviews_id_vote "r1" (JStr "dislike") [review0_liked])) = Some r'
          ∧ userVotes r' = userVotes review0_liked
          ∧ same_meta review0_liked r'
          ∧ thumbsUp review0_liked <= thumbsUp r'
          ∧ thumbsDown review0_liked <= thumbsDown r'
          ∧ thumbsUp r' + thumbsDown r'
            <= thumbsUp review0_liked + thumbsDown review0_liked + 1.
Proof.
  split; [done|]. split.
  { apply (proj1 (simple_vote_touches_one_review "r1" (JStr "like") [review0_liked])).
    done. }
  split; [reflexivity|].
  apply (proj2 (simple_vote_touches_one_review "r1" (JStr "dislike") [review0_liked])).
  reflexivity.
Defined.

(** ** Undoing and reordering votes *)

Lemma action_literal_In (a : Action) :
  In (action_literal a) ["like"; "dislike"; "remove"].
Proof. destruct a; simpl; auto. Qed.

Lemma usefulness_update_table (u : string) (r : Review) (cv : option Vote) (a : Action) :
  valid_key u = true →
  userVotes r !! u = vote_literal <$> cv →
  usefulness_update (JStr u) (JStr (action_literal a)) r
  = match applyVote cv a with
    | Some res => Normal (apply_result u res r)
    | None => Return (res_error 400 "No vote to remove")
    end.
Proof.
  intros Hk Hcv. unfold usefulness_update, userVotes_set, userVotes_delete.
  rewrite (userVotes_get_valid u r Hk), Hcv, Hk.
  destruct cv as [[]|], a; simpl; unfold apply_result;
    rewrite ?Z.add_0_r; reflexivity.
Qed.

(** A request of a user whose key the map refuses is refused, whatever the
    action, and the collection stays as it was. *)
Lemma post_usefulness_invalid_key (id t : value) (u : string) (db : Store) :
  valid_key u = false →
  snd (post_reviews_usefulness (mkUsefulness id (JStr u) t) db) = db.
Proof.
  intros Hk.
  destruct (post_usefulness_cases (mkUsefulness id (JStr u) t) db)
    as [(n & msg & _ & ->)|(r & r' & _ & Hupd & _)]; [reflexivity|].
  destruct (usefulness_update_invalid_key u _ r r' Hk Hupd).
Qed.

Lemma ledger_step_id (u : string) (cv : option Vote) (a : Action) (r : Review) :
  _id (ledger_step u cv a r) = _id r.
Proof. unfold ledger_step. by destruct (applyVote cv a) as [[[nv dU] dD]|]. Qed.

Lemma ledger_step_other (u u' : string) (cv : option Vote) (a : Action) (r : Review) :
  u ≠ u' → userVotes (ledger_step u cv a r) !! u' = userVotes r !! u'.
Proof.
  intros Hne. unfold ledger_step.
  destruct (applyVote cv a) as [[[[v|] dU] dD]|]; simpl; [| |reflexivity].
  - by apply lookup_insert_ne.
  - by apply lookup_delete_ne.
Qed.

(** The collection after one request, in terms of [ledger_step]. *)
Lemma post_usefulness_ledger_step
    (db : Store) (rid u : string) (r : Review) (cv : option Vote) (a : Action) :
  u ≠ EmptyString →
  valid_key u = true →
  findById (JStr rid) db = Some r →
  userVotes r !! u = vote_literal <$> cv →
  snd (post_reviews_usefulness
         (mkUsefulness (JStr rid) (JStr u) (JStr (action_literal a))) db)
  = save (ledger_step u cv a r) db.
Proof.
  intros Hu Hk Hf Hcv.
  rewrite (post_usefulness_found rid u _ db r Hu (action_literal_In a) Hf).
  rewrite (usefulness_update_table u r cv a Hk Hcv). unfold ledger_step.
  destruct (applyVote cv a); [reflexivity|].
  cbn [snd]. symmetry. by apply (save_same rid).
Qed.

Lemma apply_result_comm (u1 u2 : string) (res1 res2 : option Vote * Z * Z) (r : Review) :
  u1 ≠ u2 →
  apply_result u2 res2 (apply_result u1 res1 r)
  = apply_result u1 res1 (apply_result u2 res2 r).
Proof.
  intros Hne. destruct res1 as [[nv1 x1] y1], res2 as [[nv2 x2] y2].
  unfold apply_result; simpl. f_equal; try lia.
  destruct nv1, nv2.
  - by apply insert_insert_ne.
  - by apply delete_insert_ne.
  - symmetry. by apply delete_insert_ne.
  - apply delete_delete.
Qed.

(** X5.  A first vote can always be taken back: for a user whose
    identifier is a key the vote map accepts and who has no recorded vote on
    an existing review, a [like] or a [dislike] is accepted, and the same
    request sent again, or a [remove], is accepted too, returns the review as
    it was before the vote and leaves the collection as it was. *)
Theorem first_vote_can_be_undone
    (db : Store) (rid u : string) (r : Review) (v : Vote) (undo : string) :
  u ≠ EmptyString →
  valid_key u = true →
  findById (JStr rid) db = Some r →
  userVotes r !! u = None →
  undo = vote_literal v ∨ undo = "remove" →
  status (fst (post_reviews_usefulness
                 (mkUsefulness (JStr rid) (JStr u) (JStr (vote_literal v))) db))
  = 200%nat
  ∧ post_reviews_usefulness
      (mkUsefulness (JStr rid) (JStr u) (JStr undo))
      (snd (post_reviews_usefulness
              (mkUsefulness (JStr rid) (JStr u) (JStr (vote_literal v))) db))
    = (res_json (ReviewJson r), db).
Proof.
  intros Hu Hk Hf Hv Hundo.
  assert (Hlit : In (vote_literal v) ["like"; "dislike"; "remove"])
    by (destruct v; simpl; auto).
  assert (Hin : In undo ["like"; "dislike"; "remove"])
    by (destruct Hundo as [-> | ->]; [assumption | simpl; auto]).
  assert (Hne : vote_literal v ≠ "remove") by (by destruct v).
  assert (Hne' : vote_literal v ≠ EmptyString) by (by destruct v).
  set (r1 := set_userVotes (<[u := vote_literal v]> (userVotes r))
               (increment_for (JStr (vote_literal v)) r)).
  assert (Hfirst : post_reviews_usefulness
            (mkUsefulness (JStr rid) (JStr u) (JStr (vote_literal v))) db
          = (res_json (ReviewJson r1), save r1 db)).
  { rewrite (post_usefulness_found rid u _ db r Hu Hlit Hf).
    rewrite (update_first_vote u _ r Hk Hv Hne).
    rewrite (userVotes_set_valid u _ _ Hk). unfold r1. by destruct v. }
  assert (Hid1 : _id r1 = _id r) by (by destruct v).
  assert (Hf1 : findById (JStr rid) (save r1 db) = Some r1)
    by (by apply (findById_save rid db r)).
  assert (Hv1 : userVotes r1 !! u = Some (vote_literal v)).
  { unfold r1. destruct v; apply lookup_insert_eq. }
  assert (Hback : userVotes_delete (JStr u) (decrement_for (JStr (vote_literal v)) r1)
                  = Normal r).
  { rewrite (userVotes_delete_valid u _ Hk). f_equal. unfold r1.
    destruct v; (apply review_eq; simpl; try lia; [by repeat split|]);
      by apply delete_insert_id. }
  rewrite Hfirst. split; [reflexivity|]. cbn [snd].
  rewrite (post_usefulness_found rid u undo _ r1 Hu Hin Hf1).
  destruct Hundo as [-> | ->].
  - rewrite (update_toggle_off u _ r1 Hk Hv1 Hne' Hne), Hback.
    f_equal. rewrite (save_save r1 r db Hid1). by apply (save_same rid).
  - rewrite (update_remove u _ r1 Hk Hv1 Hne'), Hback.
    f_equal. rewrite (save_save r1 r db Hid1). by apply (save_same rid).
Qed.

Lemma first_vote_can_be_undone_witness :
  "u2" ≠ EmptyString
  ∧ valid_key "u2" = true
  ∧ findById (JStr "r1") [review0_liked] = Some review0_liked
  ∧ userVotes review0_liked !! "u2" = None
  ∧ ("remove" = vote_literal dislike ∨ "remove" = "remove")
  ∧ status (fst (post_reviews_usefulness
                   (mkUsefulness (JStr "r1") (JStr "u2") (JStr (vote_literal dislike)))
                   [review0_liked])) = 200%nat
  ∧ post_reviews_usefulness
      (mkUsefulness (JStr "r1") (JStr "u2") (JStr "remove"))
      (snd (post_reviews_usefulness
              (mkUsefulness (JStr "r1") (JStr "u2") (JStr (vote_literal dislike)))
              [review0_liked]))
    = (res_json (ReviewJson review0_liked), [review0_liked]).
Proof.
  split; [done|]. split; [reflexivity|]. split; [reflexivity|]. split; [reflexivity|].
  split; [by right|].
  apply (first_vote_can_be_undone [review0_liked] "r1" "u2" review0_liked dislike "remove");
    [done | reflexivity | reflexivity | reflexivity | by right].
Defined.

(** X6.  Requests of two different users on the same review commute: when
    each of them has no vote, a [like] or a [dislike] recorded, the
    collection after the two requests does not depend on the order in which
    they were served, whatever the two actions (and also when one of them is
    refused, as a [remove] without a vote or because the map refuses the
    user's key). *)
Theorem requests_of_two_users_commute
    (db : Store) (rid u1 u2 : string) (r : Review)
    (cv1 cv2 : option Vote) (a1 a2 : Action) :
  u1 ≠ EmptyString → u2 ≠ EmptyString → u1 ≠ u2 →
  findById (JStr rid) db = Some r →
  userVotes r !! u1 = vote_literal <$> cv1 →
  userVotes r !! u2 = vote_literal <$> cv2 →
  let req1 := mkUsefulness (JStr rid) (JStr u1) (JStr (action_literal a1)) in
  let req2 := mkUsefulness (JStr rid) (JStr u2) (JStr (action_literal a2)) in
  api_run [Usefulness req1; Usefulness req2] db
  = api_run [Usefulness req2; Usefulness req1] db.
Proof.
  intros Hu1 Hu2 Hne Hf Hcv1 Hcv2 req1 req2. unfold req1, req2.
  cbn [api_run api_step].
  destruct (valid_key u1) eqn:Hk1, (valid_key u2) eqn:Hk2.
  - rewrite (post_usefulness_ledger_step db rid u1 r cv1 a1 Hu1 Hk1 Hf Hcv1).
    rewrite (post_usefulness_ledger_step db rid u2 r cv2 a2 Hu2 Hk2 Hf Hcv2).
    rewrite (post_usefulness_ledger_step _ rid u2 (ledger_step u1 cv1 a1 r) cv2 a2 Hu2 Hk2).
    2: { apply (findById_save rid db r _ Hf). apply ledger_step_id. }
    2: { by rewrite ledger_step_other. }
    rewrite (post_usefulness_ledger_step _ rid u1 (ledger_step u2 cv2 a2 r) cv1 a1 Hu1 Hk1).
    2: { apply (findById_save rid db r _ Hf). apply ledger_step_id. }
    2: { by rewrite ledger_step_other. }
    rewrite !save_save by (rewrite !ledger_step_id; reflexivity).
    f_equal. unfold ledger_step.
    destruct (applyVote cv1 a1) as [res1|], (applyVote cv2 a2) as [res2|];
      try reflexivity.
    by apply apply_result_comm.
  - rewrite !(post_usefulness_invalid_key _ _ u2 _ Hk2). reflexivity.
  - rewrite !(post_usefulness_invalid_key _ _ u1 _ Hk1). reflexivity.
  - rewrite !(post_usefulness_invalid_key _ _ u1 _ Hk1).
    by rewrite !(post_usefulness_invalid_key _ _ u2 _ Hk2).
Qed.

Lemma requests_of_two_users_commute_witness :
  "u1" ≠ EmptyString ∧ "u2" ≠ EmptyString ∧ "u1" ≠ "u2"
  ∧ findById (JStr "r1") [review0_liked] = Some review0_liked
  ∧ userVotes review0_liked !! "u1" = vote_literal <$> Some like
  ∧ userVotes review0_liked !! "u2" = vote_literal <$> None
  ∧ api_run [Usefulness (mkUsefulness (JStr "r1") (JStr "u1") (JStr (action_literal ActDislike)));
             Usefulness (mkUsefulness (JStr "r1") (JStr "u2") (JStr (action_literal ActLike)))]
            [review0_liked]
    = api_run [Usefulness (mkUsefulness (JStr "r1") (JStr "u2") (JStr (action_literal ActLike)));
               Usefulness (mkUsefulness (JStr "r1") (JStr "u1") (JStr (action_literal ActDislike)))]
              [review0_liked].
Proof.
  split; [done|]. split; [done|]. split; [done|].
  split; [reflexivity|]. split; [reflexivity|]. split; [reflexivity|].
  apply (requests_of_two_users_commute
           [review0_liked] "r1" "u1" "u2" review0_liked (Some like) None
           ActDislike ActLike); done.
Defined.

(** ** What the vote map can hold *)

Lemma usefulness_update_wf (k t : value) (r r' : Review) :
  includes ["like"; "dislike"; "remove"] t = true →
  usefulness_update k t r = Normal r' → votes_wf r → votes_wf r'.
Proof.
  intros Hinc H Hwf u' v' Hl.
  destruct (usefulness_update_ledger _ _ _ _ H) as (u & -> & Hdel & _).
  pose proof (usefulness_update_valid_key _ _ _ _ H) as Hk.
  destruct (decide (u' = u)) as [->|Hne].
  2: { apply (Hwf u'). rewrite <- Hl.
       rewrite <- (lookup_delete_ne (userVotes r) u u') by done.
       rewrite <- Hdel. by rewrite lookup_delete_ne. }
  assert (Hset : ∀ a r0, a = "like" ∨ a = "dislike" →
            userVotes_set (JStr u) (JStr a) r0 = Normal r' → v' = a).
  { intros a r0 _ Hs. rewrite (userVotes_set_valid u a r0 Hk) in Hs.
    injection Hs as <-. simpl in Hl.
    rewrite lookup_insert_eq in Hl. congruence. }
  assert (Hdelete : ∀ r0, userVotes_delete (JStr u) r0 = Normal r' → False).
  { intros r0 Hs. rewrite (userVotes_delete_valid u r0 Hk) in Hs.
    injection Hs as <-. simpl in Hl.
    by rewrite lookup_delete_eq in Hl. }
  destruct (userVotes r !! u) as [x|] eqn:Hx.
  - assert (Hx' : x ≠ EmptyString ∧ x ≠ "remove")
      by (destruct (Hwf u x Hx) as [-> | ->]; done).
    destruct Hx' as [Hx1 Hx2].
    destruct (includes_actions _ Hinc) as [-> | [-> | ->]].
    + destruct (decide (x = "like")) as [->|Hd].
      * rewrite (update_toggle_off u "like" r Hk Hx) in H by done.
        destruct (Hdelete _ H).
      * rewrite (update_switch u x "like" r Hk Hx) in H by done.
        left. apply (Hset _ _ (or_introl eq_refl) H).
    + destruct (decide (x = "dislike")) as [->|Hd].
      * rewrite (update_toggle_off u "dislike" r Hk Hx) in H by done.
        destruct (Hdelete _ H).
      * rewrite (update_switch u x "dislike" r Hk Hx) in H by done.
        right. apply (Hset _ _ (or_intror eq_refl) H).
    + rewrite (update_remove u x r Hk Hx Hx1) in H. destruct (Hdelete _ H).
  - destruct (includes_actions _ Hinc) as [-> | [-> | ->]].
    + rewrite (update_first_vote u "like" r Hk Hx) in H by done.
      left. apply (Hset _ _ (or_introl eq_refl) H).
    + rewrite (update_first_vote u "dislike" r Hk Hx) in H by done.
      right. apply (Hset _ _ (or_intror eq_refl) H).
    + unfold usefulness_update in H. rewrite (userVotes_get_None u r Hx) in H.
      discriminate.
Qed.

(** X7.  The API never records anything but a [like] or a [dislike]: if
    every entry of a review's [userVotes] is one of the two literals, this
    still holds after any sequence of usefulness requests and simple votes.
    In particular a [remove] is never stored as a vote. *)
Theorem recorded_votes_stay_literals
    (cs : list api_call) (db : Store) (rid : string) (r : Review) :
  findById (JStr rid) db = Some r →
  (∀ u v, userVotes r !! u = Some v → v = "like" ∨ v = "dislike") →
  ∃ r', findById (JStr rid) (api_run cs db) = Some r'
        ∧ ∀ u v, userVotes r' !! u = Some v → v = "like" ∨ v = "dislike".
Proof.
  intros Hf Hwf.
  apply (api_run_preserves votes_wf) with (r := r); try assumption.
  - intros k t r0 r1. apply usefulness_update_wf.
  - intros r0 H. exact H.
  - intros r0 H. exact H.
Qed.

Lemma recorded_votes_stay_literals_witness :
  findById (JStr "r1") [review0_liked] = Some review0_liked
  ∧ (∀ u v, userVotes review0_liked !! u = Some v → v = "like" ∨ v = "dislike")
  ∧ ∃ r', findById (JStr "r1")
            (api_run [Usefulness (mkUsefulness (JStr "r1") (JStr "u2") (JStr "dislike"));
                      SimpleVote "r1" (JStr "like");
                      Usefulness (mkUsefulness (JStr "r1") (JStr "u1") (JStr "remove"))]
                     [review0_liked]) = Some r'
          ∧ ∀ u v, userVotes r' !! u = Some v → v = "like" ∨ v = "dislike".
Proof.
  assert (Hwf : ∀ u v, userVotes review0_liked !! u = Some v → v = "like" ∨ v = "dislike").
  { intros u v. simpl. destruct (decide (u = "u1")) as [->|Hne].
    - rewrite lookup_insert_eq. intros [= <-]. by left.
    - rewrite lookup_insert_ne by done. by rewrite lookup_empty. }
  split; [reflexivity|]. split; [exact Hwf|].
  apply (recorded_votes_stay_literals _ [review0_liked] "r1" review0_liked);
    [reflexivity | exact Hwf].
Defined.

(** ** Counters and voters *)

Lemma ind_literals (x : string) :
  x = "like" ∨ x = "dislike" → ind "like" x + ind "dislike" x = 1.
Proof. by intros [-> | ->]. Qed.

Lemma size_is_likes_plus_dislikes (m : gmap string string) :
  (∀ u v, m !! u = Some v → v = "like" ∨ v = "dislike") →
  Z.of_nat (size m) = Z.of_nat (count "like" m) + Z.of_nat (count "dislike" m).
Proof.
  induction m as [|u x m Hu _ IH] using map_first_key_ind.
  - intros _. unfold count. by rewrite !map_filter_empty, map_size_empty.
  - intros Hwf.
    rewrite map_size_insert_None by done.
    rewrite !count_insert, (delete_id m u Hu).
    pose proof (ind_literals x (Hwf u x (lookup_insert_eq m u x))) as Hx.
    assert (IH' : Z.of_nat (size m)
                  = Z.of_nat (count "like" m) + Z.of_nat (count "dislike" m)).
    { apply IH. intros u' v' Hl. apply (Hwf u').
      rewrite lookup_insert_ne; [assumption|]. intros <-. congruence. }
    lia.
Qed.

(** X8.  Under the usefulness route alone the two counters add up to the
    number of voters: for a review whose entries are [like] or [dislike] and
    whose counters equal the numbers of [like] and of [dislike] entries,
    after any sequence of usefulness requests [thumbsUp + thumbsDown] is the
    number of users with a recorded vote. *)
Theorem counters_add_up_to_voters
    (bodies : list usefulness_body) (db : Store) (rid : string) (r : Review) :
  findById (JStr rid) db = Some r →
  votes_wf r → count_inv r →
  ∃ r', findById (JStr rid) (usefulness_run bodies db) = Some r'
        ∧ thumbsUp r' + thumbsDown r' = Z.of_nat (size (userVotes r')).
Proof.
  intros Hf Hwf Hinv.
  destruct (usefulness_run_preserves (λ r, votes_wf r ∧ count_inv r))
    with (bodies := bodies) (db := db) (rid := rid) (r := r)
    as (r' & Hf' & Hwf' & Hup' & Hdown'); try assumption.
  - intros k t r0 r1 Hinc Hupd [H1 H2]. split.
    + by apply (usefulness_update_wf k t r0 r1).
    + by apply (usefulness_update_count_inv k t r0 r1).
  - by split.
  - exists r'. split; [assumption|].
    rewrite (size_is_likes_plus_dislikes _ Hwf'). lia.
Qed.

Lemma counters_add_up_to_voters_witness :
  findById (JStr "r1") [review0_liked] = Some review0_liked
  ∧ votes_wf review0_liked ∧ count_inv review0_liked
  ∧ ∃ r', findById (JStr "r1")
            (usefulness_run
               [mkUsefulness (JStr "r1") (JStr "u2") (JStr "dislike");
                mkUsefulness (JStr "r1") (JStr "u3") (JStr "like");
                mkUsefulness (JStr "r1") (JStr "u1") (JStr "like")]
               [review0_liked]) = Some r'
          ∧ thumbsUp r' + thumbsDown r' = Z.of_nat (size (userVotes r')).
Proof.
  assert (Hwf : votes_wf review0_liked).
  { intros u v. simpl. destruct (decide (u = "u1")) as [->|Hne].
    - rewrite lookup_insert_eq. intros [= <-]. by left.
    - rewrite lookup_insert_ne by done. by rewrite lookup_empty. }
  assert (Hinv : count_inv review0_liked) by (split; vm_compute; reflexivity).
  split; [reflexivity|]. split; [exact Hwf|]. split; [exact Hinv|].
  apply (counters_add_up_to_voters _ [review0_liked] "r1" review0_liked);
    [reflexivity | exact Hwf | exact Hinv].
Defined.

(** ** One request, one step *)

Lemma entry_bounds (u : string) (m : gmap string string) :
  0 <= entry "like" u m ∧ 0 <= entry "dislike" u m
  ∧ entry "like" u m + entry "dislike" u m <= 1.
Proof.
  unfold entry, ind. destruct (m !! u) as [x|]; [|lia].
  destruct (String.eqb x "like") eqn:E1, (String.eqb x "dislike") eqn:E2; try lia.
  destruct (like_dislike_excl x E1 E2).
Qed.

(** X9.  One usefulness request moves a counter by at most one: whatever the
    request, each of [thumbsUp] and [thumbsDown] of a stored review differs
    by at most 1 from its value before, and so does their sum (a switch
    moves one vote, it does not add one). *)
Theorem one_request_moves_one_vote
    (body : usefulness_body) (db : Store) (rid : string) (r : Review) :
  findById (JStr rid) db = Some r →
  ∃ r', findById (JStr rid) (snd (post_reviews_usefulness body db)) = Some r'
        ∧ Z.abs (thumbsUp r' - thumbsUp r) <= 1
        ∧ Z.abs (thumbsDown r' - thumbsDown r) <= 1
        ∧ Z.abs ((thumbsUp r' + thumbsDown r') - (thumbsUp r + thumbsDown r)) <= 1.
Proof.
  intros Hf.
  destruct (post_usefulness_lookup body db rid r Hf)
    as [Hsame|(r' & _ & Hupd & -> & Hf')].
  - exists r. split; [assumption|]. lia.
  - exists r'. split; [assumption|].
    destruct (usefulness_update_ledger _ _ _ _ Hupd) as (u & _ & _ & Hu & Hd & _).
    pose proof (entry_bounds u (userVotes r)).
    pose proof (entry_bounds u (userVotes r')).
    lia.
Qed.

Lemma one_request_moves_one_vote_witness :
  findById (JStr "r1") [review0_liked] = Some review0_liked
  ∧ ∃ r', findById (JStr "r1")
            (snd (post_reviews_usefulness
                    (mkUsefulness (JStr "r1") (JStr "u1") (JStr "dislike"))
                    [review0_liked])) = Some r'
          ∧ Z.abs (thumbsUp r' - thumbsUp review0_liked) <= 1
          ∧ Z.abs (thumbsDown r' - thumbsDown review0_liked) <= 1
          ∧ Z.abs ((thumbsUp r' + thumbsDown r')
                   - (thumbsUp review0_liked + thumbsDown review0_liked)) <= 1.
Proof.
  split; [reflexivity|].
  apply (one_request_moves_one_vote _ [review0_liked] "r1" review0_liked).
  reflexivity.
Defined.

(** * The CORS origin check *)

(** X10.  The origin check lets a request through when it has no origin
    (or an empty one), and lets an origin [o] through exactly when [o] is
    the configured [CLIENT_URL] or Stripe's checkout origin; every other
    origin is refused with "Not allowed by CORS". *)
Theorem cors_origin_allow_list (CLIENT_URL : value) :
  Cors.origin CLIENT_URL JUndefined = Cors.Allowed
  ∧ (∀ o : string,
       Cors.origin CLIENT_URL (JStr o) = Cors.Allowed
       ↔ o = EmptyString ∨ CLIENT_URL = JStr o ∨ o = "https://checkout.stripe.com")
  ∧ (∀ v : value,
       Cors.origin CLIENT_URL v = Cors.Allowed
       ∨ Cors.origin CLIENT_URL v = Cors.Refused "Not allowed by CORS").
Proof.
  split; [reflexivity|]. split.
  - intros o. unfold Cors.origin, Cors.indexOf, Cors.allowedOrigins.
    cbn [Cors.indexOf_from truthy].
    destruct (String.eqb_spec o EmptyString) as [->|Ho]; cbn [negb orb].
    { split; [by left | reflexivity]. }
    destruct (CLIENT_URL === JStr o) eqn:Hc.
    { split; [|reflexivity]. intros _. right; left. by apply strict_eq_literal. }
    cbn [strict_eq].
    destruct (String.eqb_spec "https://checkout.stripe.com" o) as [<-|Hs].
    { split; [|reflexivity]. intros _. by right; right. }
    split; [discriminate|].
    intros [-> | [-> | ->]]; try done.
    simpl in Hc. by rewrite String.eqb_refl in Hc.
  - intros v. unfold Cors.origin.
    destruct (negb (truthy v) || _); [by left | by right].
Qed.

(** * The Stripe webhook *)

(** The deliveries on which the handler goes past its checks: the signature
    verifies, the event is a completed checkout, and the session carries a
    shipping address and a customer email. *)
Lemma webhook_cases (w : Webhook.world) (req : Webhook.request) :
  (∃ status text, Webhook.webhook w req = (Webhook.Send status text, [])
                  ∧ status = 400%nat)
  ∨ (Webhook.webhook w req = (Webhook.Received, [])
     ∧ ∃ event,
         Webhook.constructEvent w (Webhook.body req) (Webhook.stripe_signature req)
           (Webhook.STRIPE_WEBHOOK_SECRET w) = inr event
         ∧ Webhook.type event ≠ JStr "checkout.session.completed")
  ∨ (∃ event,
       Webhook.constructEvent w (Webhook.body req) (Webhook.stripe_signature req)
         (Webhook.STRIPE_WEBHOOK_SECRET w) = inr event
       ∧ Webhook.type event = JStr "checkout.session.completed"
       ∧ truthy (Webhook.shippingAddress (Webhook.data_object event)) = true
       ∧ truthy (Webhook.customerEmail (Webhook.data_object event)) = true
       ∧ Webhook.webhook w req
         = let session := Webhook.data_object event in
           match Webhook.listLineItems w (Webhook.id session) with
           | None => (Webhook.Rejects, [Webhook.ListLineItems (Webhook.id session)])
           | Some line_items =>
               let formatted := Webhook.formattedLineItems w line_items in
               if negb (Webhook.retrieve w (Webhook.id session)) then
                 (Webhook.Send 500 "Internal Server Error",
                  [Webhook.ListLineItems (Webhook.id session);
                   Webhook.RetrieveSession (Webhook.id session)])
               else if negb (Webhook.sendMail w (Webhook.mailUser w session)) then
                 (Webhook.Send 500 "Internal Server Error",
                  [Webhook.ListLineItems (Webhook.id session);
                   Webhook.RetrieveSession (Webhook.id session);
                   Webhook.SendMail (Webhook.mailUser w session)])
               else if negb (Webhook.sendMail w (Webhook.mailCompany w session formatted)) then
                 (Webhook.Send 500 "Internal Server Error",
                  [Webhook.ListLineItems (Webhook.id session);
                   Webhook.RetrieveSession (Webhook.id session);
                   Webhook.SendMail (Webhook.mailUser w session);
                   Webhook.SendMail (Webhook.mailCompany w session formatted)])
               else
                 (Webhook.Received,
                  [Webhook.ListLineItems (Webhook.id session);
                   Webhook.RetrieveSession (Webhook.id session);
                   Webhook.SendMail (Webhook.mailUser w session);
                   Webhook.SendMail (Webhook.mailCompany w session formatted)])
           end).
Proof.
  unfold Webhook.webhook.
  destruct (Webhook.constructEvent w _ _ _) as [message|event];
    [left; by eexists _, _|].
  destruct (Webhook.type event === JStr "checkout.session.completed") eqn:Hty.
  2: { right; left. split; [reflexivity|]. exists event. split; [reflexivity|].
       intros Heq. rewrite Heq in Hty. vm_compute in Hty. discriminate. }
  apply strict_eq_literal in Hty.
  destruct (truthy (Webhook.shippingAddress (Webhook.data_object event))) eqn:Ha;
    [|left; by eexists _, _].
  destruct (truthy (Webhook.customerEmail (Webhook.data_object event))) eqn:He;
    [|left; by eexists _, _].
  right; right. exists event. by repeat split.
Qed.

(** X11.  The webhook acts only on a verified, complete checkout: if the
    handler makes any call to Stripe or to the mail transport, then the
    signature of the delivery verified, the event is a
    [checkout.session.completed], and its session carries a shipping address
    and a customer email.  For a delivery whose signature does not verify
    nothing is called. *)
Theorem webhook_acts_only_on_verified_checkout
    (w : Webhook.world) (req : Webhook.request) (c : Webhook.call) :
  In c (snd (Webhook.webhook w req)) →
  ∃ event,
    Webhook.constructEvent w (Webhook.body req) (Webhook.stripe_signature req)
      (Webhook.STRIPE_WEBHOOK_SECRET w) = inr event
    ∧ Webhook.type event = JStr "checkout.session.completed"
    ∧ truthy (Webhook.shippingAddress (Webhook.data_object event)) = true
    ∧ truthy (Webhook.customerEmail (Webhook.data_object event)) = true.
Proof.
  intros Hc.
  destruct (webhook_cases w req)
    as [(st & tx & H & _)|[[H _]|(event & Hev & Hty & Ha & He & _)]].
  - rewrite H in Hc. destruct Hc.
  - rewrite H in Hc. destruct Hc.
  - by exists event.
Qed.

Lemma webhook_acts_only_on_verified_checkout_witness :
  In (Webhook.RetrieveSession (JStr "cs_test_1"))
     (snd (Webhook.webhook example_webhook_world example_webhook_request))
  ∧ ∃ event,
      Webhook.constructEvent example_webhook_world
        (Webhook.body example_webhook_request)
        (Webhook.stripe_signature example_webhook_request)
        (Webhook.STRIPE_WEBHOOK_SECRET example_webhook_world) = inr event
      ∧ Webhook.type event = JStr "checkout.session.completed"
      ∧ truthy (Webhook.shippingAddress (Webhook.data_object event)) = true
      ∧ truthy (Webhook.customerEmail (Webhook.data_object event)) = true.
Proof.
  assert (Hin : In (Webhook.RetrieveSession (JStr "cs_test_1"))
                  (snd (Webhook.webhook example_webhook_world example_webhook_request)))
    by (vm_compute; auto).
  split; [exact Hin|].
  apply (webhook_acts_only_on_verified_checkout _ _ _ Hin).
Defined.

(** X12.  Mails go out in a fixed order and only after Stripe answered: a
    mail the handler hands to the transport is either the confirmation for
    the customer, addressed to the session's customer email, or the notice
    for the shop, addressed to [EMAIL_USER]; both are attempted only after
    the line items were listed and the session retrieved, and the notice for
    the shop only after the customer's confirmation was sent. *)
Theorem webhook_mails_in_order
    (w : Webhook.world) (req : Webhook.request) (m : Webhook.mail) :
  In (Webhook.SendMail m) (snd (Webhook.webhook w req)) →
  ∃ event line_items,
    Webhook.constructEvent w (Webhook.body req) (Webhook.stripe_signature req)
      (Webhook.STRIPE_WEBHOOK_SECRET w) = inr event
    ∧ Webhook.listLineItems w (Webhook.id (Webhook.data_object event)) = Some line_items
    ∧ Webhook.retrieve w (Webhook.id (Webhook.data_object event)) = true
    ∧ ((m = Webhook.mailUser w (Webhook.data_object event)
        ∧ Webhook.to m = Webhook.customerEmail (Webhook.data_object event))
       ∨ (m = Webhook.mailCompany w (Webhook.data_object event)
                (Webhook.formattedLineItems w line_items)
          ∧ Webhook.to m = Webhook.EMAIL_USER w
          ∧ Webhook.sendMail w (Webhook.mailUser w (Webhook.data_object event)) = true)).
Proof.
  intros Hm.
  destruct (webhook_cases w req)
    as [(st & tx & H & _)|[[H _]|(event & Hev & _ & _ & _ & H)]];
    rewrite H in Hm; try (by destruct Hm).
  cbv zeta in Hm.
  destruct (Webhook.listLineItems w _) as [line_items|] eqn:Hl.
  2: { cbn [snd In] in Hm. destruct Hm as [Hm|[]]. discriminate. }
  exists event, line_items. split; [assumption|]. split; [exact Hl|].
  destruct (Webhook.retrieve w _) eqn:Hr; cbn [negb snd In] in Hm.
  2: { destruct Hm as [Hm|[Hm|[]]]; discriminate. }
  split; [reflexivity|].
  destruct (Webhook.sendMail w (Webhook.mailUser w _)) eqn:Hs1;
    cbn [negb snd In] in Hm.
  2: { destruct Hm as [Hm|[Hm|[Hm|[]]]]; try discriminate.
       injection Hm as <-. by left. }
  destruct (Webhook.sendMail w (Webhook.mailCompany w _ _));
    cbn [negb snd In] in Hm;
    (destruct Hm as [Hm|[Hm|[Hm|[Hm|[]]]]]; try discriminate;
     injection Hm as <-; [by left | by right]).
Qed.

Lemma webhook_mails_in_order_witness :
  In (Webhook.SendMail
        (Webhook.mailCompany example_webhook_world (Webhook.data_object example_event)
           "2 x Server PC, 1 x Rack rails"))
     (snd (Webhook.webhook example_webhook_world example_webhook_request))
  ∧ ∃ event line_items,
      Webhook.constructEvent example_webhook_world
        (Webhook.body example_webhook_request)
        (Webhook.stripe_signature example_webhook_request)
        (Webhook.STRIPE_WEBHOOK_SECRET example_webhook_world) = inr event
      ∧ Webhook.listLineItems example_webhook_world
          (Webhook.id (Webhook.data_object event)) = Some line_items
      ∧ Webhook.retrieve example_webhook_world
          (Webhook.id (Webhook.data_object event)) = true
      ∧ ((Webhook.mailCompany example_webhook_world (Webhook.data_object example_event)
            "2 x Server PC, 1 x Rack rails"
          = Webhook.mailUser example_webhook_world (Webhook.data_object event)
          ∧ Webhook.to
              (Webhook.mailCompany example_webhook_world
                 (Webhook.data_object example_event) "2 x Server PC, 1 x Rack rails")
            = Webhook.customerEmail (Webhook.data_object event))
         ∨ (Webhook.mailCompany example_webhook_world (Webhook.data_object example_event)
              "2 x Server PC, 1 x Rack rails"
            = Webhook.mailCompany example_webhook_world (Webhook.data_object event)
                (Webhook.formattedLineItems example_webhook_world line_items)
            ∧ Webhook.to
                (Webhook.mailCompany example_webhook_world
                   (Webhook.data_object example_event) "2 x Server PC, 1 x Rack rails")
              = Webhook.EMAIL_USER example_webhook_world
            ∧ Webhook.sendMail example_webhook_world
                (Webhook.mailUser example_webhook_world (Webhook.data_object event))
              = true)).
Proof.
  assert (Hin : In (Webhook.SendMail
                      (Webhook.mailCompany example_webhook_world
                         (Webhook.data_object example_event)
                         "2 x Server PC, 1 x Rack rails"))
                  (snd (Webhook.webhook example_webhook_world example_webhook_request)))
    by (vm_compute; auto 6).
  split; [exact Hin|].
  apply (webhook_mails_in_order _ _ _ Hin).
Defined.

(** X13.  [{ received: true }] means there was nothing to do or everything
    was done: when the handler acknowledges a delivery, either the event is
    of another type and no call was made, or the handler listed the line
    items, retrieved the session and sent both mails, the customer's first,
    and both were accepted by the transport. *)
Theorem webhook_received_means_done (w : Webhook.world) (req : Webhook.request) :
  fst (Webhook.webhook w req) = Webhook.Received →
  ∃ event,
    Webhook.constructEvent w (Webhook.body req) (Webhook.stripe_signature req)
      (Webhook.STRIPE_WEBHOOK_SECRET w) = inr event
    ∧ ((Webhook.type event ≠ JStr "checkout.session.completed"
        ∧ snd (Webhook.webhook w req) = [])
       ∨ (∃ line_items,
            let session := Webhook.data_object event in
            let notice :=
              Webhook.mailCompany w session (Webhook.formattedLineItems w line_items) in
            Webhook.type event = JStr "checkout.session.completed"
            ∧ Webhook.listLineItems w (Webhook.id session) = Some line_items
            ∧ Webhook.sendMail w (Webhook.mailUser w session) = true
            ∧ Webhook.sendMail w notice = true
            ∧ snd (Webhook.webhook w req)
              = [Webhook.ListLineItems (Webhook.id session);
                 Webhook.RetrieveSession (Webhook.id session);
                 Webhook.SendMail (Webhook.mailUser w session);
                 Webhook.SendMail notice])).
Proof.
  intros Hr.
  destruct (webhook_cases w req)
    as [(st & tx & H & _)|[[H (event & Hev & Hty)]|(event & Hev & Hty & _ & _ & H)]];
    rewrite H in Hr |- *.
  - discriminate.
  - exists event. split; [assumption|]. by left.
  - exists event. split; [assumption|]. right. cbv zeta in Hr |- *.
    destruct (Webhook.listLineItems w _) as [line_items|]; [|discriminate].
    exists line_items.
    destruct (Webhook.retrieve w _); cbn [negb] in Hr |- *; [|discriminate].
    destruct (Webhook.sendMail w (Webhook.mailUser w _));
      cbn [negb] in Hr |- *; [|discriminate].
    destruct (Webhook.sendMail w (Webhook.mailCompany w _ _));
      cbn [negb] in Hr |- *; [|discriminate].
    by repeat split.
Qed.

Lemma webhook_received_means_done_witness :
  fst (Webhook.webhook example_webhook_world example_webhook_request) = Webhook.Received
  ∧ ∃ event,
      Webhook.constructEvent example_webhook_world
        (Webhook.body example_webhook_request)
        (Webhook.stripe_signature example_webhook_request)
        (Webhook.STRIPE_WEBHOOK_SECRET example_webhook_world) = inr event
      ∧ ((Webhook.type event ≠ JStr "checkout.session.completed"
          ∧ snd (Webhook.webhook example_webhook_world example_webhook_request) = [])
         ∨ (∃ line_items,
              let session := Webhook.data_object event in
              let notice :=
                Webhook.mailCompany example_webhook_world session
                  (Webhook.formattedLineItems example_webhook_world line_items) in
              Webhook.type event = JStr "checkout.session.completed"
              ∧ Webhook.listLineItems example_webhook_world (Webhook.id session)
                = Some line_items
              ∧ Webhook.sendMail example_webhook_world
                  (Webhook.mailUser example_webhook_world session) = true
              ∧ Webhook.sendMail example_webhook_world notice = true
              ∧ snd (Webhook.webhook example_webhook_world example_webhook_request)
                = [Webhook.ListLineItems (Webhook.id session);
                   Webhook.RetrieveSession (Webhook.id session);
                   Webhook.SendMail (Webhook.mailUser example_webhook_world session);
                   Webhook.SendMail notice])).
Proof.
  split; [reflexivity|].
  apply (webhook_received_means_done example_webhook_world example_webhook_request).
  reflexivity.
Defined.

(** * The checkout session *)

Lemma map_items_unknown (w : Checkout.world) (its : list Checkout.item) (it : Checkout.item) :
  In it its →
  (∀ p, In p (Checkout.products w) →
        (Checkout.product_id p === Checkout.id it) = false) →
  Checkout.map_items w its = None.
Proof.
  intros Hin Hnone.
  assert (Hit : Checkout.line_item_of w it = None).
  { unfold Checkout.line_item_of.
    destruct (List.find _ (Checkout.products w)) as [p|] eqn:Hfind; [|reflexivity].
    apply find_some in Hfind as [Hp Heq]. rewrite (Hnone p Hp) in Heq. discriminate. }
  induction its as [|it' its' IH]; [destruct Hin|].
  simpl. destruct Hin as [->|Hin].
  - by rewrite Hit.
  - destruct (Checkout.line_item_of w it'); [|reflexivity].
    by rewrite (IH Hin).
Qed.

Lemma map_items_Some (w : Checkout.world) (its : list Checkout.item)
    (lis : list Checkout.line_item) :
  Checkout.map_items w its = Some lis →
  Forall2 (λ it li,
             Checkout.line_quantity li = Checkout.quantity it
             ∧ Checkout.currency li = "usd"
             ∧ ∃ p, In p (Checkout.products w)
                    ∧ (Checkout.product_id p === Checkout.id it) = true
                    ∧ Checkout.product_data_name li = Checkout.name p
                    ∧ Checkout.unit_amount li
                      = Checkout.times w (Checkout.price p)
                          (JNum (QArith_base.Qmake 100 1)))
          its lis.
Proof.
  revert lis. induction its as [|it its' IH]; intros lis; simpl.
  - intros [= <-]. constructor.
  - unfold Checkout.line_item_of at 1.
    destruct (List.find _ (Checkout.products w)) as [p|] eqn:Hfind; [|discriminate].
    destruct (Checkout.map_items w its') as [lis'|]; [|discriminate].
    intros [= <-]. apply find_some in Hfind as [Hp Heq].
    constructor; [|by apply IH].
    simpl. repeat split. by exists p.
Qed.

(** X14.  An order that names a product the catalogue does not have is
    refused as a whole: if any item of the request has an [id] that no
    product of the catalogue carries, the answer is the 500 of the [catch]
    and Stripe is never asked to create a session, whatever the other items
    are. *)
Theorem checkout_unknown_product_creates_nothing
    (w : Checkout.world) (b : Checkout.body)
    (its : list Checkout.item) (it : Checkout.item) :
  Checkout.items b = Some its →
  In it its →
  (∀ p, In p (Checkout.products w) →
        (Checkout.product_id p === Checkout.id it) = false) →
  Checkout.create_checkout_session w b = (Checkout.InternalServerError, []).
Proof.
  intros Hits Hin Hnone. unfold Checkout.create_checkout_session.
  by rewrite Hits, (map_items_unknown w its it Hin Hnone).
Qed.

Lemma checkout_unknown_product_creates_nothing_witness :
  Checkout.items example_unknown_order = Some example_unknown_items
  ∧ In example_unknown_item example_unknown_items
  ∧ (∀ p, In p (Checkout.products example_checkout_world) →
          (Checkout.product_id p === Checkout.id example_unknown_item) = false)
  ∧ Checkout.create_checkout_session example_checkout_world example_unknown_order
    = (Checkout.InternalServerError, []).
Proof.
  assert (Hnone : ∀ p, In p (Checkout.products example_checkout_world) →
            (Checkout.product_id p === Checkout.id example_unknown_item) = false).
  { intros p [<-|[<-|[]]]; reflexivity. }
  split; [reflexivity|]. split; [simpl; auto|]. split; [exact Hnone|].
  apply (checkout_unknown_product_creates_nothing
           example_checkout_world example_unknown_order
           example_unknown_items example_unknown_item);
    [reflexivity | simpl; auto | exact Hnone].
Defined.

(** X15.  What Stripe is asked to charge comes from the catalogue, not from
    the request: the handler asks for at most one session, and when it does,
    the session has one line item per requested item, in the same order,
    each with the requested quantity, the currency [usd], and the name and
    the price (times 100) of a catalogue product with the item's [id]; the
    customer email is the one of the request. *)
Theorem checkout_charges_catalogue_prices
    (w : Checkout.world) (b : Checkout.body) (params : Checkout.session_params) :
  In params (snd (Checkout.create_checkout_session w b)) →
  snd (Checkout.create_checkout_session w b) = [params]
  ∧ Checkout.customer_email params = Checkout.customerEmail b
  ∧ ∃ its,
      Checkout.items b = Some its
      ∧ Forall2 (λ it li,
                   Checkout.line_quantity li = Checkout.quantity it
                   ∧ Checkout.currency li = "usd"
                   ∧ ∃ p, In p (Checkout.products w)
                          ∧ (Checkout.product_id p === Checkout.id it) = true
                          ∧ Checkout.product_data_name li = Checkout.name p
                          ∧ Checkout.unit_amount li
                            = Checkout.times w (Checkout.price p)
                                (JNum (QArith_base.Qmake 100 1)))
                its (Checkout.line_items params).
Proof.
  unfold Checkout.create_checkout_session.
  destruct (Checkout.items b) as [its|]; [|intros []].
  destruct (Checkout.map_items w its) as [lis|] eqn:Hmap; [|intros []].
  assert (Hparams : In params [Checkout.params_of w b lis] →
            [Checkout.params_of w b lis] = [params]
            ∧ Checkout.customer_email params = Checkout.customerEmail b
            ∧ ∃ its0, Some its = Some its0
                ∧ Forall2 (λ it li,
                   Checkout.line_quantity li = Checkout.quantity it
                   ∧ Checkout.currency li = "usd"
                   ∧ ∃ p, In p (Checkout.products w)
                          ∧ (Checkout.product_id p === Checkout.id it) = true
                          ∧ Checkout.product_data_name li = Checkout.name p
                          ∧ Checkout.unit_amount li
                            = Checkout.times w (Checkout.price p)
                                (JNum (QArith_base.Qmake 100 1)))
                its0 (Checkout.line_items params)).
  { intros [<-|[]]. split; [reflexivity|]. split; [reflexivity|].
    exists its. split; [reflexivity|]. by apply map_items_Some. }
  destruct (Checkout.create w _); exact Hparams.
Qed.

Lemma checkout_charges_catalogue_prices_witness :
  In example_params
     (snd (Checkout.create_checkout_session example_checkout_world example_order))
  ∧ snd (Checkout.create_checkout_session example_checkout_world example_order)
    = [example_params]
  ∧ Checkout.customer_email example_params = Checkout.customerEmail example_order
  ∧ ∃ its,
      Checkout.items example_order = Some its
      ∧ Forall2 (λ it li,
                   Checkout.line_quantity li = Checkout.quantity it
                   ∧ Checkout.currency li = "usd"
                   ∧ ∃ p, In p (Checkout.products example_checkout_world)
                          ∧ (Checkout.product_id p === Checkout.id it) = true
                          ∧ Checkout.product_data_name li = Checkout.name p
                          ∧ Checkout.unit_amount li
                            = Checkout.times example_checkout_world (Checkout.price p)
                                (JNum (QArith_base.Qmake 100 1)))
                its (Checkout.line_items example_params).
Proof.
  assert (Hin : In example_params
                  (snd (Checkout.create_checkout_session
                          example_checkout_world example_order)))
    by (vm_compute; auto).
  split; [exact Hin|].
  apply (checkout_charges_catalogue_prices
           example_checkout_world example_order example_params Hin).
Defined.
